(** * NetBox [users] application: views and bulk-edit forms

    A shallow embedding of [netbox/users/views.py] and
    [netbox/users/forms/bulk_edit.py].

    The views are request handlers: each reads the request, reads and writes
    the relational store and the session, and returns a response or raises
    ([Http404] from [get_object_or_404], [NoReverseMatch] from [reverse],
    [DisallowedRedirect] or [ValueError] from [HttpResponseRedirect]).
    They are embedded as functions in a state-and-exception monad over
    [World].  The string functions of the framework the login flow rests
    on (URL splitting, the redirect-target check, the encoding of a
    redirect's location) are written out in [Django].  What else the web
    framework and the rest of the application provide (URL reversal,
    credential checking, the token form and table) is collected in [Env]
    and stays abstract.

    Embedded from [views.py]: [LoginView], [LogoutView], [TokenListView],
    [TokenEditView] and [TokenDeleteView], and in [Account] the profile,
    preferences and password views with the change log of the user detail
    page; from [bulk_edit.py]: both forms.
    The permission resolver, the generic bulk-edit view, [Token.save()] and
    the templates are outside these two files; where a property needs them
    they are modelled from the specification and marked so. *)

From Stdlib Require Import String Ascii NArith Lia.
From stdpp Require Import base option strings pretty gmap list fin_maps fin_sets.

(** ** Python strings *)

(** Truth value of a [str]: the empty string is falsy. *)
Definition truthy (s : string) : bool :=
  match s with
  | EmptyString => false
  | String _ _ => true
  end.

(** [c in s] for a one-character [c]. *)
Fixpoint contains_char (c : ascii) (s : string) : bool :=
  match s with
  | EmptyString => false
  | String a rest => if Ascii.eqb a c then true else contains_char c rest
  end.

(** [s.startswith(p)]. *)
Definition startswith (p s : string) : bool := String.prefix p s.

(** A character stands for the code point of its number, so a string is a
    [str] of code points below 256. *)

(** [str.isspace] of one character. *)
Definition isspace (a : ascii) : bool :=
  let n := nat_of_ascii a in
  ((9 <=? n) && (n <=? 13) || (28 <=? n) && (n <=? 32)
   || (n =? 133) || (n =? 160))%nat.

(** [str.lstrip()], [str.rstrip()] and [str.strip()]. *)
Fixpoint lstrip (s : string) : string :=
  match s with
  | EmptyString => EmptyString
  | String a rest => if isspace a then lstrip rest else s
  end.

Fixpoint rstrip (s : string) : string :=
  match s with
  | EmptyString => EmptyString
  | String a rest =>
      match rstrip rest with
      | EmptyString => if isspace a then EmptyString else String a EmptyString
      | kept => String a kept
      end
  end.

Definition strip (s : string) : string := rstrip (lstrip s).

Fixpoint string_forallb (f : ascii → bool) (s : string) : bool :=
  match s with
  | EmptyString => true
  | String a rest => f a && string_forallb f rest
  end.

(** ** What the views call in Django and the standard library

    URL parsing, the redirect-target check and the encoding of a redirect's
    [Location] are pure functions of strings; they are written out here
    after [urllib.parse] and [django.utils.http] / [django.utils.encoding],
    so that the views' handling of [next] can be stated about URLs. *)
Module Django.

Definition is_ascii_alpha (a : ascii) : bool :=
  let n := nat_of_ascii a in
  ((97 <=? n) && (n <=? 122) || (65 <=? n) && (n <=? 90))%nat.

Definition is_ascii_digit (a : ascii) : bool :=
  let n := nat_of_ascii a in
  ((48 <=? n) && (n <=? 57))%nat.

(** [c in urllib.parse.scheme_chars] *)
Definition is_scheme_char (a : ascii) : bool :=
  is_ascii_alpha a || is_ascii_digit a
  || Ascii.eqb a "+" || Ascii.eqb a "-" || Ascii.eqb a ".".

(** [c in _WHATWG_C0_CONTROL_OR_SPACE] *)
Definition is_c0_control_or_space (a : ascii) : bool :=
  (nat_of_ascii a <=? 32)%nat.

(** [c in _UNSAFE_URL_BYTES_TO_REMOVE]: tab, carriage return, line feed. *)
Definition is_unsafe_url_byte (a : ascii) : bool :=
  let n := nat_of_ascii a in
  ((n =? 9) || (n =? 13) || (n =? 10))%nat.

(** [unicodedata.category(c)[0] == 'C'] *)
Definition is_control (a : ascii) : bool :=
  let n := nat_of_ascii a in
  ((n <=? 31) || (127 <=? n) && (n <=? 159) || (n =? 173))%nat.

(** [s.lstrip(chars)] *)
Fixpoint lstrip_chars (chars : ascii → bool) (s : string) : string :=
  match s with
  | EmptyString => EmptyString
  | String a rest => if chars a then lstrip_chars chars rest else s
  end.

(** [s.replace(c, '')] for every [c] of a set *)
Fixpoint remove_chars (chars : ascii → bool) (s : string) : string :=
  match s with
  | EmptyString => EmptyString
  | String a rest =>
      if chars a then remove_chars chars rest
      else String a (remove_chars chars rest)
  end.

(** [s.partition(c)] when [c] is there: what is before its first
    occurrence, and what is after. *)
Fixpoint partition (c : ascii) (s : string) : option (string * string) :=
  match s with
  | EmptyString => None
  | String a rest =>
      if Ascii.eqb a c then Some (EmptyString, rest)
      else match partition c rest with
           | Some (p, q) => Some (String a p, q)
           | None => None
           end
  end.

(** [str.lower()] on ASCII letters, which is all a scheme holds. *)
Definition lower_char (a : ascii) : ascii :=
  let n := nat_of_ascii a in
  if ((65 <=? n) && (n <=? 90))%nat then ascii_of_nat (n + 32) else a.

Fixpoint lower (s : string) : string :=
  match s with
  | EmptyString => EmptyString
  | String a rest => String (lower_char a) (lower rest)
  end.

(** The scheme step of [urlsplit]: [(scheme, url)] after it. *)
Definition split_scheme (url : string) : string * string :=
  match partition ":" url with
  | Some (String c _ as head, rest) =>
      if is_ascii_alpha c && string_forallb is_scheme_char head
      then (lower head, rest)
      else (EmptyString, url)
  | _ => (EmptyString, url)
  end.

(** [_splitnetloc(url, 2)[0]]: up to the next [/], [?] or [#]. *)
Fixpoint take_netloc (s : string) : string :=
  match s with
  | EmptyString => EmptyString
  | String a rest =>
      if Ascii.eqb a "/" || Ascii.eqb a "?" || Ascii.eqb a "#" then EmptyString
      else String a (take_netloc rest)
  end.

Definition split_netloc (url : string) : string :=
  match url with
  | String "/" (String "/" rest) => take_netloc rest
  | _ => EmptyString
  end.

(** [urlsplit(url)], as far as its callers here read it: the pair
    [(scheme, netloc)].  Leading C0 controls and spaces are stripped and
    tabs and newlines removed before anything is split. *)
Definition scheme_netloc (url : string) : string * string :=
  let url := lstrip_chars is_c0_control_or_space url in
  let url := remove_chars is_unsafe_url_byte url in
  let '(scheme, url) := split_scheme url in
  (scheme, split_netloc url).

(** Whether [urlsplit(url)] raises [ValueError]: the network location has
    one square bracket without the other, or has both and fails the
    bracketed-host check of the Python release, which is left to
    [check_bracketed_netloc].  (The NFKC check of [_checknetloc] rejects
    no code point below 256.) *)
Definition urlsplit_raises (check_bracketed_netloc : string → bool)
    (url : string) : bool :=
  let netloc := (scheme_netloc url).2 in
  let opening := contains_char "[" netloc in
  let closing := contains_char "]" netloc in
  xorb opening closing
  || opening && closing && negb (check_bracketed_netloc netloc).

Definition exceeds (max_length : option N) (url : string) : bool :=
  match max_length with
  | Some n => (n <? N.of_nat (String.length url))%N
  | None => false
  end.

Definition first_is_control (url : string) : bool :=
  match url with
  | EmptyString => false
  | String a _ => is_control a
  end.

(** [_url_has_allowed_host_and_scheme(url, allowed_hosts=set())]: with no
    allowed host, a network location is never accepted.  [urlsplit]
    raises only when it has found a network location, which is turned
    into [False] here as any network location is.  Releases that bound
    the length of a checked URL have [max_length = Some MAX_URL_LENGTH]. *)
Definition _url_has_allowed_host_and_scheme (max_length : option N)
    (url : string) : bool :=
  if startswith "///" url || exceeds max_length url then false
  else
    let '(scheme, netloc) := scheme_netloc url in
    if negb (truthy netloc) && truthy scheme then false
    else if first_is_control url then false
    else
      let scheme :=
        if negb (truthy scheme) && truthy netloc then "http" else scheme in
      negb (truthy netloc)
      && (negb (truthy scheme) || bool_decide (scheme ∈ ["http"; "https"])).

(** [url.replace('\\', '/')] *)
Fixpoint replace_backslash (s : string) : string :=
  match s with
  | EmptyString => EmptyString
  | String a rest =>
      String (if Ascii.eqb a "\" then "/"%char else a) (replace_backslash rest)
  end.

(** [url_has_allowed_host_and_scheme(url, allowed_hosts=None)] *)
Definition url_has_allowed_host_and_scheme (max_length : option N)
    (url : string) : bool :=
  let url := strip url in
  truthy url
  && _url_has_allowed_host_and_scheme max_length url
  && _url_has_allowed_host_and_scheme max_length (replace_backslash url).

(** [urllib.parse.quote]: its always-safe characters, and the [safe]
    argument of [iri_to_uri]. *)
Definition is_always_safe (a : ascii) : bool :=
  is_ascii_alpha a || is_ascii_digit a
  || contains_char a "_.-~".

Definition is_iri_safe (a : ascii) : bool :=
  contains_char a "/#%[]=:;$&()+,!?*@'~".

Definition hex_digit (n : nat) : ascii :=
  ascii_of_nat (if (n <? 10)%nat then 48 + n else 55 + n).

(** ['%{:02X}'.format(b)] *)
Definition percent (b : nat) : string :=
  String "%" (String (hex_digit (b / 16)) (String (hex_digit (b mod 16)) EmptyString)).

(** One character through [quote]: kept when safe, otherwise the bytes of
    its UTF-8 encoding percent-encoded. *)
Definition quote_char (a : ascii) : string :=
  let n := nat_of_ascii a in
  if (n <? 128)%nat then
    if is_always_safe a || is_iri_safe a then String a EmptyString
    else percent n
  else percent (192 + n / 64) +:+ percent (128 + n mod 64).

(** [iri_to_uri(iri)] *)
Fixpoint iri_to_uri (iri : string) : string :=
  match iri with
  | EmptyString => EmptyString
  | String a rest => quote_char a +:+ iri_to_uri rest
  end.

End Django.

(** ** Kinds of URL

    Not code of the framework: the shapes of [next] that the properties of
    the login flow speak of, such as an absolute URL or a path on this
    site. *)
Module Url.
Import Django.

(** A URL with a scheme, such as [https://evil.example/x]: a letter,
    then letters, digits, [+], [-] and [.], up to a colon. *)
Definition has_scheme (url : string) : bool :=
  match partition ":" url with
  | Some (String c scheme, _) =>
      is_ascii_alpha c && string_forallb is_scheme_char scheme
  | _ => false
  end.

(** A scheme-relative URL, such as [//evil.example/x]. *)
Definition is_network_path (url : string) : bool :=
  match url with
  | String "/" (String "/" (String h _)) => is_ascii_alpha h || is_ascii_digit h
  | _ => false
  end.

(** An absolute URL: it names a host whichever page it is followed from. *)
Definition is_absolute_url (url : string) : bool :=
  has_scheme url || is_network_path url.

(** A character a URL may hold unencoded: [iri_to_uri] keeps it. *)
Definition is_uri_char (a : ascii) : bool :=
  (nat_of_ascii a <? 128)%nat && (is_always_safe a || is_iri_safe a).

(** A path on this site, such as [/dashboard]: one slash, not followed by
    a second, and URL characters only. *)
Definition is_local_path (url : string) : bool :=
  match url with
  | String "/" rest => negb (startswith "/" rest) && string_forallb is_uri_char rest
  | _ => false
  end.

(** What a browser may take for a host in a URL: a scheme or a network
    location, in the URL as it is or with its backslashes read as
    slashes. *)
Definition names_host (url : string) : bool :=
  let url := strip url in
  let seen u := truthy (scheme_netloc u).1 || truthy (scheme_netloc u).2 in
  seen url || seen (replace_backslash url).

End Url.

(** ** Requests, responses, exceptions *)

Inductive Method := GET | POST.

(** A [QueryDict] restricted to what the views read: [data.get(k)]. *)
Abbreviation QueryDict := (gmap string string).

(** [request.user] is [None] for [AnonymousUser]; a user is identified by
    its username, which is also what [str(user)] prints. *)
Record HttpRequest := mkRequest {
  method : Method;
  GET_data : QueryDict;
  POST_data : QueryDict;
  user : option string;
  path : string;
  (** [request.get_full_path()]: the path with its query string *)
  get_full_path : string;
}.

Definition is_authenticated (request : HttpRequest) : bool :=
  match user request with
  | Some _ => true
  | None => false
  end.

(** [str(request.user)]. *)
Definition user_str (u : option string) : string :=
  match u with
  | Some name => name
  | None => "AnonymousUser"
  end.

Inductive Raised :=
  | Http404
  | NoReverseMatch (viewname : string)
  (** raised by [HttpResponseRedirect] for a URL it refuses *)
  | DisallowedRedirect
  (** raised by [urlsplit] *)
  | ValueError
  (** any exception raised by code that is not among the sources *)
  | Uncaught (exception : string).

(** ** Settings and dynamic configuration *)

Abbreviation Prefs := (gmap string string).

Record Settings := mkSettings {
  LOGIN_URL : string;
  LOGIN_REDIRECT_URL : string;
  LOGOUT_REDIRECT_URL : string;
  ALLOW_TOKEN_RETRIEVAL : bool;
}.

(** [get_config()] *)
Record Config := mkConfig {
  MAINTENANCE_MODE : bool;
  DEFAULT_USER_PREFERENCES : Prefs;
}.

(** ** API tokens *)

(** A row of the token table.  The view reads [user] and [key]; the other
    columns are only touched through the token form and are kept as a map. *)
Record Token := mkToken {
  tk_user : string;
  key : string;
  tk_fields : gmap string string;
}.

(** A model instance: its [pk] is [None] until the instance has been saved. *)
Record TokenInstance := mkInstance {
  instance_pk : option positive;
  row : Token;
}.

Definition set_user (u : string) (t : Token) : Token :=
  mkToken u (key t) (tk_fields t).

Definition set_key (k : string) (t : Token) : Token :=
  mkToken (tk_user t) k (tk_fields t).

(** [Token(user=u)]: a fresh unsaved instance. *)
Definition Token_new (u : string) : TokenInstance :=
  mkInstance None (mkToken u "" ∅).

(** [Token()]: the instance a model form without [instance=] starts from. *)
Definition Token_blank : TokenInstance :=
  mkInstance None (mkToken "" "" ∅).

(** ** Responses *)

Record AuthData := mkAuthData {
  display_name : string;
  icon_name : string;
  url : string;
}.

(** Values handed to a template.  A token key passed under its own name is
    a [VSecret]; model instances, querysets, tables and forms are passed as
    objects, and the template decides what it shows of them. *)
Inductive CtxValue :=
  | VStr (s : string)
  | VBool (b : bool)
  | VSecret (k : string)
  | VToken (t : TokenInstance)
  | VTokens (ts : list (positive * Token))
  | VTable (ts : list (positive * Token))
  | VLoginForm (data : option QueryDict)
  | VTokenForm (data : option QueryDict) (instance : TokenInstance)
  | VConfirmationForm (data : option QueryDict) (initial : list (string * string))
  | VAuthBackends (backends : list AuthData).

Inductive Body :=
  | Redirect (location : string)
  | Render (template_name : string) (context : list (string * CtxValue)).

Record HttpResponse := mkResponse {
  body : Body;
  deleted_cookies : list string;
}.

Definition render (template_name : string) (context : list (string * CtxValue))
  : HttpResponse :=
  mkResponse (Render template_name context) [].

(** [response.delete_cookie(name)] *)
Definition delete_cookie (name : string) (response : HttpResponse) : HttpResponse :=
  mkResponse (body response) (name :: deleted_cookies response).

(** ** The world a request runs in *)

Inductive Level := DEBUG | INFO | WARNING | SUCCESS.

Record LogRecord := mkLog {
  logger_name : string;
  levelname : Level;
  msg : string;
}.

(** Flash messages.  Those that format a token keep the instance; how a
    token prints is the template layer's business. *)
Inductive Message :=
  | MsgText (lvl : Level) (text : string)
  | MsgModifiedToken (t : TokenInstance)
  | MsgCreatedToken (t : TokenInstance).

Record World := mkWorld {
  (** the user the session is authenticated as, if any *)
  session_user : option string;
  (** [User.last_login] *)
  last_login : gmap string N;
  (** [UserConfig] rows, one-to-one with users *)
  userconfigs : gmap string Prefs;
  (** [Token] rows by primary key *)
  tokens : gmap positive Token;
  (** whether [update_last_login] is connected to [user_logged_in] *)
  update_last_login_connected : bool;
  (** how many secrets the key generator has handed out *)
  keys_issued : nat;
  log : list LogRecord;
  messages : list Message;
}.

Definition with_session (s : option string) (w : World) : World :=
  mkWorld s (last_login w) (userconfigs w) (tokens w)
    (update_last_login_connected w) (keys_issued w) (log w) (messages w).

Definition with_last_login (m : gmap string N) (w : World) : World :=
  mkWorld (session_user w) m (userconfigs w) (tokens w)
    (update_last_login_connected w) (keys_issued w) (log w) (messages w).

Definition with_userconfigs (m : gmap string Prefs) (w : World) : World :=
  mkWorld (session_user w) (last_login w) m (tokens w)
    (update_last_login_connected w) (keys_issued w) (log w) (messages w).

Definition with_tokens (m : gmap positive Token) (w : World) : World :=
  mkWorld (session_user w) (last_login w) (userconfigs w) m
    (update_last_login_connected w) (keys_issued w) (log w) (messages w).

Definition with_connected (b : bool) (w : World) : World :=
  mkWorld (session_user w) (last_login w) (userconfigs w) (tokens w)
    b (keys_issued w) (log w) (messages w).

Definition with_keys_issued (n : nat) (w : World) : World :=
  mkWorld (session_user w) (last_login w) (userconfigs w) (tokens w)
    (update_last_login_connected w) n (log w) (messages w).

Definition with_log (l : list LogRecord) (w : World) : World :=
  mkWorld (session_user w) (last_login w) (userconfigs w) (tokens w)
    (update_last_login_connected w) (keys_issued w) l (messages w).

Definition with_messages (l : list Message) (w : World) : World :=
  mkWorld (session_user w) (last_login w) (userconfigs w) (tokens w)
    (update_last_login_connected w) (keys_issued w) (log w) l.

(** ** The view monad: state, and exceptions that keep the state *)

Definition View (A : Type) : Type := World → (Raised + A) * World.

#[global] Instance View_ret : MRet View := λ A a w, (inr a, w).

#[global] Instance View_bind : MBind View := λ A B f m w,
  match m w with
  | (inl e, w') => (inl e, w')
  | (inr a, w') => f a w'
  end.

Definition raise {A : Type} (e : Raised) : View A := λ w, (inl e, w).

(** A computation that does not touch the world. *)
Definition lift {A : Type} (r : Raised + A) : View A := λ w, (r, w).

Definition modify (f : World → World) : View unit := λ w, (inr tt, f w).

Definition gets {A : Type} (f : World → A) : View A := λ w, (inr (f w), w).

(** [logging.getLogger(name).<level>(msg)] *)
Definition logger (name : string) (lvl : Level) (text : string) : View unit :=
  modify (λ w, with_log (log w ++ [mkLog name lvl text]) w).

(** [messages.<level>(request, ...)] *)
Definition add_message (m : Message) : View unit :=
  modify (λ w, with_messages (messages w ++ [m]) w).

(** ** The environment of the views *)

Record Env := mkEnv {
  settings : Settings;
  get_config : Config;
  (** [django.urls.reverse] on a route name: [None] is [NoReverseMatch]. *)
  reverse : string → option string;
  (** [django.utils.http.MAX_URL_LENGTH], the longest URL the redirect-target
      check accepts, and the longest URL [HttpResponseRedirect] accepts, in
      the releases of the framework that bound them. *)
  MAX_URL_LENGTH : option N;
  redirect_max_length : option N;
  (** The check [urlsplit] makes of a network location with both square
      brackets ([_check_bracketed_netloc], always passed in the Python
      releases without it). *)
  check_bracketed_netloc : string → bool;
  (** [LoginForm(request, data=request.POST)]: [is_valid()] holds exactly
      when the credentials authenticate a user, which [get_user()] returns. *)
  LoginForm_get_user : QueryDict → option string;
  (** [timezone.now()] *)
  now : N;
  (** [TokenForm(data, instance=...)]: validity of the submitted data
      (against the table, for uniqueness checks), what
      [form.save(commit=False)] writes onto the instance's row, and what
      [form.is_valid()] has written onto it when the form is not valid
      (a model form writes the fields that cleaned onto its instance
      while it validates). *)
  TokenForm_is_valid : gmap positive Token → QueryDict → TokenInstance → bool;
  TokenForm_construct : QueryDict → Token → Token;
  TokenForm_post_clean : QueryDict → Token → Token;
  (** [ConfirmationForm(data).is_valid()] *)
  ConfirmationForm_is_valid : QueryDict → bool;
  (** The n-th secret handed out by the key generator. *)
  generate_key : nat → string;
  (** [TokenTable(tokens).configure(request)]: the table classes are not
      among the sources; configuring a table reads the request and may
      store the user's table preferences. *)
  TokenTable_configure : HttpRequest → View unit;
  (** Social-auth login links: [load_backends(...).keys()],
      [get_saml_idps()], [get_auth_backend_display], [urlencode],
      [reverse('social:begin', args=[name])] and [str.lower]. *)
  load_backends : list string;
  get_saml_idps : list string;
  get_auth_backend_display : string → string * string;
  urlencode : list (string * string) → string;
  reverse_social_begin : string → option string;
  lower : string → string;
}.

(** [url_has_allowed_host_and_scheme(url, allowed_hosts=None)] *)
Definition url_has_allowed_host_and_scheme (E : Env) (url : string) : bool :=
  Django.url_has_allowed_host_and_scheme (MAX_URL_LENGTH E) url.

(** [HttpResponseRedirect(redirect_to)]: the [Location] header is the
    percent-encoded URL; the constructor refuses a URL over its length
    limit, parses the URL, which may raise, and refuses a scheme other
    than [http], [https] and [ftp]. *)
Definition HttpResponseRedirect (E : Env) (redirect_to : string)
  : Raised + HttpResponse :=
  if Django.exceeds (redirect_max_length E) redirect_to then
    inl DisallowedRedirect
  else if Django.urlsplit_raises (check_bracketed_netloc E) redirect_to then
    inl ValueError
  else
    let scheme := (Django.scheme_netloc redirect_to).1 in
    if truthy scheme && negb (bool_decide (scheme ∈ ["http"; "https"; "ftp"]))
    then inl DisallowedRedirect
    else inr (mkResponse (Redirect (Django.iri_to_uri redirect_to)) []).

(** A URL within the lengths the framework admits. *)
Definition within_length_limits (E : Env) (url : string) : bool :=
  negb (Django.exceeds (MAX_URL_LENGTH E) url)
  && negb (Django.exceeds (redirect_max_length E) url).

(** ** Framework calls *)

Section Framework.
Context (E : Env).

(** [reverse(viewname)] *)
Definition reverse_or_raise (viewname : string) : Raised + string :=
  match reverse E viewname with
  | Some u => inr u
  | None => inl (NoReverseMatch viewname)
  end.

Definition reverse_url (viewname : string) : View string :=
  lift (reverse_or_raise viewname).

(** [django.shortcuts.resolve_url(to)] on a string: a relative URL is
    returned as it is; otherwise the name is reversed, and a name that
    does not reverse is taken for a URL when it contains a slash or a
    dot, and raises otherwise. *)
Definition resolve (to : string) : Raised + string :=
  if startswith "./" to || startswith "../" to then inr to
  else match reverse E to with
       | Some u => inr u
       | None =>
           if negb (contains_char "/"%char to) && negb (contains_char "."%char to)
           then inl (NoReverseMatch to)
           else inr to
       end.

Definition resolve_url (to : string) : View string :=
  lift (resolve to).

(** [django.shortcuts.redirect(to)] *)
Definition redirect (to : string) : View HttpResponse :=
  u ← resolve_url to;
  lift (HttpResponseRedirect E u).

(** [AccessMixin.handle_no_permission] for an anonymous user, with
    [LOGIN_URL] a URL on the requested host: a redirect to the login page
    with [request.get_full_path()] as [next]. *)
Definition redirect_to_login (request : HttpRequest) : Raised + HttpResponse :=
  HttpResponseRedirect E
    (LOGIN_URL (settings E) +:+ "?"
       +:+ urlencode E [("next", get_full_path request)]).

(** The [update_last_login] receiver. *)
Definition update_last_login (u : string) (w : World) : World :=
  with_last_login (<[u := now E]> (last_login w)) w.

(** [auth_login(request, user)]: the session is bound to the user, then
    the [user_logged_in] signal runs its connected receivers. *)
Definition auth_login (u : string) : View unit :=
  modify (λ w,
    let w1 := with_session (Some u) w in
    if update_last_login_connected w1 then update_last_login u w1 else w1).

(** [auth_logout(request)]: the session is flushed. *)
Definition auth_logout : View unit :=
  modify (with_session None).

(** [user_logged_in.disconnect(update_last_login, dispatch_uid=...)] *)
Definition disconnect_update_last_login : View unit :=
  modify (with_connected false).

(** [hasattr(user, 'config')]: the reverse one-to-one accessor raises an
    [AttributeError] subclass when the user has no [UserConfig] row. *)
Definition hasattr_config (u : string) : View bool :=
  gets (λ w, bool_decide (is_Some (userconfigs w !! u))).

(** [UserConfig(user=u, data=data).save()] *)
Definition UserConfig_save (u : string) (data : Prefs) : View unit :=
  modify (λ w, with_userconfigs (<[u := data]> (userconfigs w)) w).

End Framework.

(** ** Login and logout *)

Section LoginLogout.
Context (E : Env).

Definition login_logger : string := "netbox.auth.login".
Definition logout_logger : string := "netbox.auth.logout".

(** [LoginView.gen_auth_data] *)
Definition gen_auth_data (name url : string) (params : list (string * string))
  : AuthData :=
  let '(display_name, icon_name) := get_auth_backend_display E name in
  mkAuthData display_name icon_name (url +:+ "?" +:+ urlencode E params).

(** [params[k] = v] on an insertion-ordered dict. *)
Fixpoint dict_set (k v : string) (params : list (string * string))
  : list (string * string) :=
  match params with
  | [] => [(k, v)]
  | (k', v') :: rest =>
      if String.eqb k' k then (k, v) :: rest else (k', v') :: dict_set k v rest
  end.

(** The inner loop of [get_auth_backends] over the SAML identity
    providers; [params] is the one dict the loop keeps writing to. *)
Fixpoint saml_entries (name begin : string) (params : list (string * string))
    (idps : list string) : list AuthData :=
  match idps with
  | [] => []
  | idp :: rest =>
      let params := dict_set "idp" idp params in
      let data := gen_auth_data name begin params in
      let data :=
        mkAuthData (display_name data +:+ " (" +:+ idp +:+ ")")
                   (icon_name data) (url data) in
      data :: saml_entries name begin params rest
  end.

Definition is_nil {A : Type} (l : list A) : bool :=
  match l with
  | [] => true
  | _ :: _ => false
  end.

Fixpoint auth_backends_loop (request : HttpRequest) (names : list string)
  : View (list AuthData) :=
  match names with
  | [] => mret []
  | name :: rest =>
      u ← (match reverse_social_begin E name with
           | Some u => mret u
           | None => raise (NoReverseMatch "social:begin")
           end);
      let params :=
        match GET_data request !! "next" with
        | Some next => if truthy next then [("next", next)] else []
        | None => []
        end in
      let here :=
        if String.eqb (lower E name) "saml" && negb (is_nil (get_saml_idps E))
        then saml_entries name u params (get_saml_idps E)
        else [gen_auth_data name u params] in
      more ← auth_backends_loop request rest;
      mret (here ++ more)%list
  end.

(** [LoginView.get_auth_backends] *)
Definition get_auth_backends (request : HttpRequest) : View (list AuthData) :=
  auth_backends_loop request (load_backends E).

(** [request.POST if request.method == "POST" else request.GET] *)
Definition request_data (request : HttpRequest) : QueryDict :=
  match method request with
  | POST => POST_data request
  | GET => GET_data request
  end.

(** [LoginView.redirect_to_next] *)
Definition redirect_to_next (request : HttpRequest) : View HttpResponse :=
  let data := request_data request in
  let redirect_url :=
    default (LOGIN_REDIRECT_URL (settings E)) (data !! "next") in
  if truthy redirect_url && url_has_allowed_host_and_scheme E redirect_url then
    logger login_logger DEBUG ("Redirecting user to " +:+ redirect_url);;
    lift (HttpResponseRedirect E redirect_url)
  else
    (if truthy redirect_url then
       logger login_logger WARNING
         ("Ignoring unsafe 'next' URL passed to login form: " +:+ redirect_url)
     else mret tt);;
    home ← reverse_url E "home";
    lift (HttpResponseRedirect E home).

Definition login_page (request : HttpRequest) (form : CtxValue)
  : View HttpResponse :=
  backends ← get_auth_backends request;
  mret (render "login.html"
          [("form", form); ("auth_backends", VAuthBackends backends)]).

(** [LoginView.get] *)
Definition LoginView_get (request : HttpRequest) : View HttpResponse :=
  if is_authenticated request then redirect_to_next request
  else login_page request (VLoginForm None).

Definition with_user (u : option string) (request : HttpRequest) : HttpRequest :=
  mkRequest (method request) (GET_data request) (POST_data request) u
    (path request) (get_full_path request).

(** [LoginView.post] *)
Definition LoginView_post (request : HttpRequest) : View HttpResponse :=
  match LoginForm_get_user E (POST_data request) with
  | Some u =>
      logger login_logger DEBUG "Login form validation was successful";;
      (if MAINTENANCE_MODE (get_config E) then
         logger login_logger WARNING
           "Maintenance mode enabled: disabling update of most recent login time";;
         disconnect_update_last_login
       else mret tt);;
      auth_login E u;;
      let request := with_user (Some u) request in
      logger login_logger INFO
        ("User " +:+ user_str (user request) +:+ " successfully authenticated");;
      add_message
        (MsgText SUCCESS ("Logged in as " +:+ user_str (user request) +:+ "."));;
      has_config ← hasattr_config u;
      (if negb has_config then
         UserConfig_save u (DEFAULT_USER_PREFERENCES (get_config E))
       else mret tt);;
      redirect_to_next request
  | None =>
      logger login_logger DEBUG
        ("Login form validation failed for username: "
           +:+ default "None" (POST_data request !! "username"));;
      login_page request (VLoginForm (Some (POST_data request)))
  end.

(** [LogoutView.get] *)
Definition LogoutView_get (request : HttpRequest) : View HttpResponse :=
  let username := user request in
  auth_logout;;
  logger logout_logger INFO
    ("User " +:+ user_str username +:+ " has logged out");;
  add_message (MsgText INFO "You have logged out.");;
  u ← resolve_url E (LOGOUT_REDIRECT_URL (settings E));
  response ← lift (HttpResponseRedirect E u);
  mret (delete_cookie "session_key" response).

End LoginLogout.

(** ** API token views *)

Section TokenViews.
Context (E : Env).

(** Truth value of the [pk] argument of a view: [None] and [0] are falsy. *)
Definition pk_truthy (pk : option N) : bool :=
  match pk with
  | Some (Npos _) => true
  | Some N0 | None => false
  end.

(** [LoginRequiredMixin.dispatch]: an anonymous request is sent to the
    login page. *)
Definition LoginRequiredMixin (request : HttpRequest)
    (view : string → View HttpResponse) : View HttpResponse :=
  match user request with
  | Some u => view u
  | None => lift (redirect_to_login E request)
  end.

(** [Token.objects.filter(user=u)] *)
Definition Token_objects_filter (u : string) (table : gmap positive Token)
  : gmap positive Token :=
  filter (λ kv, tk_user kv.2 = u) table.

(** [get_object_or_404(Token.objects.filter(user=u), pk=pk)] *)
Definition get_object_or_404 (u : string) (pk : option N) : View TokenInstance :=
  λ w,
    match pk with
    | Some (Npos p) =>
        match Token_objects_filter u (tokens w) !! p with
        | Some t => (inr (mkInstance (Some p) t), w)
        | None => (inl Http404, w)
        end
    | Some N0 | None => (inl Http404, w)
    end.

(** Modelled from the spec: [Token.save()] lives in [users/models.py],
    which is not among the sources.  The secret is generated once, when a
    row is created without one (spec 4.2); a new row gets an unused primary
    key, an existing one is overwritten in place. *)
Definition Token_save (t : TokenInstance) : View TokenInstance :=
  λ w,
    match instance_pk t with
    | Some p =>
        (inr t, with_tokens (<[p := row t]> (tokens w)) w)
    | None =>
        let '(r, w1) :=
          if truthy (key (row t)) then (row t, w)
          else (set_key (generate_key E (keys_issued w)) (row t),
                with_keys_issued (S (keys_issued w)) w) in
        let p := fresh (dom (tokens w1)) in
        (inr (mkInstance (Some p) r), with_tokens (<[p := r]> (tokens w1)) w1)
    end.

(** [token.delete()] *)
Definition Token_delete (t : TokenInstance) : View unit :=
  modify (λ w,
    match instance_pk t with
    | Some p => with_tokens (delete p (tokens w)) w
    | None => w
    end).

(** [TokenListView.get].  The queryset is lazy: its rows are read when the
    page is rendered, after the table has been configured. *)
Definition TokenListView_get (request : HttpRequest) : View HttpResponse :=
  LoginRequiredMixin request (λ u,
    TokenTable_configure E request;;
    tokens ← gets (λ w, map_to_list (Token_objects_filter u (tokens w)));
    mret (render "users/api_tokens.html"
            [("tokens", VTokens tokens);
             ("active_tab", VStr "api-tokens");
             ("table", VTable tokens)])).

(** [TokenEditView.get] *)
Definition TokenEditView_get (request : HttpRequest) (pk : option N)
  : View HttpResponse :=
  LoginRequiredMixin request (λ u,
    token ← (if pk_truthy pk then get_object_or_404 u pk
             else mret (Token_new u));
    return_url ← reverse_url E "users:token_list";
    mret (render "generic/object_edit.html"
            [("object", VToken token);
             ("form", VTokenForm None token);
             ("return_url", VStr return_url)])).

(** [form.save(commit=False)] followed by [token.user = request.user]:
    the instance handed to [token.save()]. *)
Definition submitted (u : string) (data : QueryDict) (instance : TokenInstance)
  : TokenInstance :=
  let token := mkInstance (instance_pk instance)
                 (TokenForm_construct E data (row instance)) in
  mkInstance (instance_pk token) (set_user u (row token)).

(** [TokenEditView.post] after [token.save()]: the flash message and the
    choice of response. *)
Definition after_save (request : HttpRequest) (pk : option N)
    (token : TokenInstance) : View HttpResponse :=
  add_message (if pk_truthy pk then MsgModifiedToken token
               else MsgCreatedToken token);;
  if negb (pk_truthy pk) && negb (ALLOW_TOKEN_RETRIEVAL (settings E)) then
    return_url ← reverse_url E "users:token_list";
    mret (render "users/api_token.html"
            [("object", VToken token);
             ("key", VSecret (key (row token)));
             ("return_url", VStr return_url)])
  else if bool_decide (is_Some (POST_data request !! "_addanother")) then
    redirect E (path request)
  else
    redirect E "users:token_list".

(** The instance of a form that did not validate, as [is_valid()] leaves
    it. *)
Definition post_clean (data : QueryDict) (instance : TokenInstance)
  : TokenInstance :=
  mkInstance (instance_pk instance) (TokenForm_post_clean E data (row instance)).

(** [TokenEditView.post].  With a [pk] the form is bound to the fetched
    token, so what validation writes shows in [token] too; without one the
    form has an instance of its own. *)
Definition TokenEditView_post (request : HttpRequest) (pk : option N)
  : View HttpResponse :=
  LoginRequiredMixin request (λ u,
    let data := POST_data request in
    '(token, instance) ←
      (if pk_truthy pk then
         token ← get_object_or_404 u pk;
         mret (token, token)
       else mret (Token_new u, Token_blank));
    valid ← gets (λ w, TokenForm_is_valid E (tokens w) data instance);
    if valid : bool then
      token ← Token_save (submitted u data instance);
      after_save request pk token
    else
      let instance := post_clean data instance in
      let token := if pk_truthy pk then instance else token in
      return_url ← reverse_url E "users:token_list";
      mret (render "generic/object_edit.html"
              [("object", VToken token);
               ("form", VTokenForm (Some data) instance);
               ("return_url", VStr return_url);
               ("disable_addanother",
                VBool (negb (ALLOW_TOKEN_RETRIEVAL (settings E))))])).

Definition delete_page (token : TokenInstance) (form : CtxValue)
  : View HttpResponse :=
  return_url ← reverse_url E "users:token_list";
  mret (render "generic/object_delete.html"
          [("object", VToken token);
           ("form", form);
           ("return_url", VStr return_url)]).

(** [TokenDeleteView.get] *)
Definition TokenDeleteView_get (request : HttpRequest) (pk : N)
  : View HttpResponse :=
  LoginRequiredMixin request (λ u,
    token ← get_object_or_404 u (Some pk);
    initial_url ← reverse_url E "users:token_list";
    delete_page token (VConfirmationForm None [("return_url", initial_url)])).

(** [TokenDeleteView.post] *)
Definition TokenDeleteView_post (request : HttpRequest) (pk : N)
  : View HttpResponse :=
  LoginRequiredMixin request (λ u,
    let data := POST_data request in
    token ← get_object_or_404 u (Some pk);
    if ConfirmationForm_is_valid E data then
      Token_delete token;;
      add_message (MsgText SUCCESS "Token deleted");;
      redirect E "users:token_list"
    else
      delete_page token (VConfirmationForm (Some data) [])).

End TokenViews.

(** ** What a response reveals of token secrets *)

(** Modelled from the spec: the templates, [TokenTable] and [TokenForm] that
    print a token object are not among the sources.  By the display policy
    (spec 4.2) a token object shows its plaintext secret only when the
    system-wide retrieval flag permits it; otherwise only a reference. *)
Definition token_plaintext (allow_retrieval : bool) (t : Token) : list string :=
  if allow_retrieval then [key t] else [].

(** Modelled from the spec: the plaintext secrets a template value puts on
    the page, a key passed as such always, a token object (alone, in a
    queryset or table, or behind a form) by the display policy. *)
Definition value_plaintexts (allow_retrieval : bool) (v : CtxValue) : list string :=
  match v with
  | VSecret k => [k]
  | VToken t => token_plaintext allow_retrieval (row t)
  | VTokens ts | VTable ts =>
      flat_map (λ kv, token_plaintext allow_retrieval kv.2) ts
  | VTokenForm _ t => token_plaintext allow_retrieval (row t)
  | VStr _ | VBool _ | VLoginForm _ | VConfirmationForm _ _ | VAuthBackends _ => []
  end.

Definition plaintext_secrets (allow_retrieval : bool) (response : HttpResponse)
  : list string :=
  match body response with
  | Redirect _ => []
  | Render _ context =>
      flat_map (λ entry, value_plaintexts allow_retrieval entry.2) context
  end.

(** ** Permission resolver *)

Module Resolver.

(** Modelled from the spec: the permission resolver (spec 3 and 4.1) is
    implemented outside the sources (the views only call
    [restrict(request.user, 'view')]).  A principal is a user together
    with its group memberships and its superuser flag. *)
Record Principal := mkPrincipal {
  username : string;
  groups : gset string;
  is_superuser : bool;
}.

(** Modelled from the spec: an [ObjectPermission] grants a set of actions
    over a set of object types to a set of users and groups, optionally
    narrowed by a constraint on instances; a disabled grant is inert. *)
Record ObjectPermission (Instance : Type) := mkPermission {
  enabled : bool;
  perm_users : gset string;
  perm_groups : gset string;
  actions : gset string;
  object_types : gset string;
  constraint : option (Instance → bool);
}.
Arguments mkPermission {Instance}.
Arguments enabled {Instance}.
Arguments perm_users {Instance}.
Arguments perm_groups {Instance}.
Arguments actions {Instance}.
Arguments object_types {Instance}.
Arguments constraint {Instance}.

Section WithInstance.
Context {Instance : Type}.

(** Modelled from the spec: a row is collected when it is enabled, its
    principal set intersects the principal and its groups, its action
    set contains the action and its object-type set the object type. *)
Definition matches (P : Principal) (action object_type : string)
    (perm : ObjectPermission Instance) : bool :=
  enabled perm
  && bool_decide (username P ∈ perm_users perm
                  ∨ perm_groups perm ∩ groups P ≠ ∅)
  && bool_decide (action ∈ actions perm)
  && bool_decide (object_type ∈ object_types perm).

(** Modelled from the spec: the collected set of matching rows. *)
Definition collect (perms : list (ObjectPermission Instance))
    (P : Principal) (action object_type : string)
  : list (ObjectPermission Instance) :=
  List.filter (matches P action object_type) perms.

(** Modelled from the spec: a permission with no constraint matches every
    instance of the type. *)
Definition satisfies (instance : Instance) (perm : ObjectPermission Instance)
  : bool :=
  match constraint perm with
  | None => true
  | Some c => c instance
  end.

(** Modelled from the spec: [is_allowed(principal, action, object_type,
    instance?)].  A superuser is allowed; an empty collected set denies;
    otherwise a concrete instance must satisfy the constraint of at
    least one collected permission. *)
Definition is_allowed (perms : list (ObjectPermission Instance))
    (P : Principal) (action object_type : string)
    (instance : option Instance) : bool :=
  if is_superuser P then true
  else
    match collect perms P action object_type with
    | [] => false
    | collected =>
        match instance with
        | None => true
        | Some i => existsb (satisfies i) collected
        end
    end.

(** Modelled from the spec: [restrict(principal, action, object_type)],
    the union of the collected permissions' constraints. *)
Definition restrict (perms : list (ObjectPermission Instance))
    (P : Principal) (action object_type : string) : Instance → bool :=
  λ i,
    if is_superuser P then true
    else existsb (satisfies i) (collect perms P action object_type).

End WithInstance.

End Resolver.

(** ** Bulk-edit forms *)

Module BulkEdit.

(** The form fields [bulk_edit.py] declares. *)
Inductive Field :=
  | ModelMultipleChoiceField
  | CharField (max_length : nat) (required : bool)
  | BooleanField (required : bool).

Record Form := mkForm {
  model : string;
  fields : list (string * Field);
  fieldsets : list string;
  nullable_fields : list string;
}.

(** [UserBulkEditForm] *)
Definition UserBulkEditForm : Form := {|
  model := "NetBoxUser";
  fields := [("pk", ModelMultipleChoiceField);
             ("first_name", CharField 150 false);
             ("last_name", CharField 150 false);
             ("is_active", BooleanField false);
             ("is_staff", BooleanField false);
             ("is_superuser", BooleanField false)];
  fieldsets := ["first_name"; "last_name"; "is_active"; "is_staff";
                "is_superuser"];
  nullable_fields := [];
|}.

(** [ObjectPermissionBulkEditForm] *)
Definition ObjectPermissionBulkEditForm : Form := {|
  model := "ObjectPermission";
  fields := [("pk", ModelMultipleChoiceField);
             ("description", CharField 200 false);
             ("enabled", BooleanField false)];
  fieldsets := ["description"; "enabled"];
  nullable_fields := [];
|}.

(** Column values of a row. *)
Inductive FieldValue :=
  | VNull
  | VText (s : string)
  | VBoolean (b : bool).

Abbreviation Row := (gmap string FieldValue).

(** [self.fields['pk'].queryset = self.model.objects.all()]: the form
    accepts the primary key of every row of the model's table. *)
Definition pk_queryset (table : gmap positive Row) : gset positive :=
  dom table.

(** Cleaning of the [pk] field: it is required, and every submitted key
    must be in the field's queryset. *)
Definition clean_pk (table : gmap positive Row) (pks : list positive) : bool :=
  negb (bool_decide (pks = []))
  && forallb (λ p, bool_decide (p ∈ pk_queryset table)) pks.

(** Cleaning of one submitted value against the declared field: the
    cleaned value, or [None] when the value does not validate.  A
    [CharField] strips its text and refuses null characters and text over
    its maximum length. *)
Definition clean_value (f : Field) (v : FieldValue) : option FieldValue :=
  match f, v with
  | CharField max_length required, VText s =>
      let s := strip s in
      if (String.length s <=? max_length)%nat
         && negb (contains_char Ascii.zero s)
         && (negb required || truthy s)
      then Some (VText s) else None
  | BooleanField required, VBoolean b =>
      if negb required || b then Some (VBoolean b) else None
  | _, _ => None
  end.

Definition lookup_field (form : Form) (name : string) : option Field :=
  snd <$> List.find (λ nf, String.eqb nf.1 name) (fields form).

(** The value submitted for every field the form declares cleans.  What
    is submitted under a name the form does not declare is ignored. *)
Definition clean_changes (form : Form) (changes : gmap string FieldValue) : bool :=
  forallb (λ nv,
      match lookup_field form nv.1 with
      | Some f => bool_decide (is_Some (clean_value f nv.2))
      | None => true
      end)
    (map_to_list changes).

(** [form.cleaned_data]: the cleaned values of the declared fields. *)
Definition cleaned_data (form : Form) (changes : gmap string FieldValue)
  : gmap string FieldValue :=
  map_imap (λ name v, lookup_field form name ≫= λ f, clean_value f v) changes.

Definition is_valid (form : Form) (table : gmap positive Row)
    (pks : list positive) (changes : gmap string FieldValue) : bool :=
  clean_pk table pks && clean_changes form changes.

(** ** Bulk apply *)

(** Modelled from the spec: the uniform outcome of a bulk operation, rows
    affected and identifiers left out as unauthorized (spec 4.4). *)
Record Outcome := mkOutcome {
  affected : nat;
  unauthorized : nat;
}.

Inductive Result :=
  | ValidationError
  | Applied (o : Outcome).

(** Modelled from the spec: applying a sparse field-update map and a set
    of fields to null out to one row (spec 4.4 and 6). *)
Definition apply_changes (changes : gmap string FieldValue) (nulls : gset string)
    (r : Row) : Row :=
  gset_to_gmap VNull nulls ∪ changes ∪ r.

(** Modelled from the spec: [bulk-apply(entity-id-set, field-changes,
    nullable-field-set)] lives in the generic bulk-edit view, which is not
    among the sources.  The targets are pre-filtered by the resolver's
    [restrict] predicate; the outcome counts the rows affected and the
    requested identifiers left out (spec 4.4). *)
Definition bulk_apply (admits : Row → bool) (ids : gset positive)
    (changes : gmap string FieldValue) (nulls : gset string)
    (table : gmap positive Row) : gmap positive Row * Outcome :=
  let targets := filter (λ kv, kv.1 ∈ ids ∧ admits kv.2 = true) table in
  ((apply_changes changes nulls <$> targets) ∪ table,
   mkOutcome (size targets) (size ids - size targets)).

(** Modelled from the spec: a bulk-edit endpoint (spec 6).  The request
    carries the target identifiers, the field changes and the fields to
    null out; the form validates them, only fields the form declares
    nullable are nulled, and the cleaned changes go through [bulk_apply] under
    the acting principal's [restrict] predicate for the modify action. *)
Definition bulk_edit (form : Form) (modify : string)
    (perms : list (Resolver.ObjectPermission Row)) (P : Resolver.Principal)
    (pks : list positive) (changes : gmap string FieldValue)
    (nullify : list string) (table : gmap positive Row)
  : gmap positive Row * Result :=
  if is_valid form table pks changes then
    let nulls : gset string :=
      list_to_set (List.filter (λ n, bool_decide (n ∈ nullable_fields form))
                     nullify) in
    let '(table', o) :=
      bulk_apply (Resolver.restrict perms P modify (model form))
        (list_to_set pks) (cleaned_data form changes) nulls table in
    (table', Applied o)
  else (table, ValidationError).

End BulkEdit.

(** ** A reference environment *)

(** A concrete environment on which the views run by computation. *)
Module Reference.

(** Routes of the URL configuration the views name. *)
Definition routes (viewname : string) : option string :=
  if String.eqb viewname "home" then Some "/"
  else if String.eqb viewname "users:token_list" then Some "/user/api-tokens/"
  else None.

(** One account, [alice] with password [s3cret]. *)
Definition accounts (data : QueryDict) : option string :=
  match data !! "username", data !! "password" with
  | Some "alice", Some "s3cret" => Some "alice"
  | _, _ => None
  end.

(** The token form edits the [description] column and nothing else. *)
Definition write_description (data : QueryDict) (t : Token) : Token :=
  mkToken (tk_user t) (key t)
    (<["description" := default "" (data !! "description")]> (tk_fields t)).

(** A form without a description does not validate; its [expires] field,
    when submitted, has been written onto the instance by then. *)
Definition write_expires (data : QueryDict) (t : Token) : Token :=
  match data !! "expires" with
  | Some e => mkToken (tk_user t) (key t) (<["expires" := e]> (tk_fields t))
  | None => t
  end.

(** Configuring the token table stores the requested ordering in the
    user's preferences. *)
Definition save_ordering (request : HttpRequest) : View unit :=
  match user request, GET_data request !! "sort" with
  | Some u, Some ordering =>
      modify (λ w,
        with_userconfigs
          (<[u := <["tables.TokenTable.ordering" := ordering]>
                    (default ∅ (userconfigs w !! u))]> (userconfigs w)) w)
  | _, _ => mret tt
  end.

Definition env (maintenance allow_retrieval : bool) : Env := {|
  settings := mkSettings "/login/" "/" "home" allow_retrieval;
  get_config := mkConfig maintenance {["pagination.per_page" := "50"]};
  reverse := routes;
  MAX_URL_LENGTH := Some 2048%N;
  redirect_max_length := Some 16384%N;
  check_bracketed_netloc := λ _, true;
  LoginForm_get_user := accounts;
  now := 1700000000%N;
  TokenForm_is_valid := λ _ data _, bool_decide (is_Some (data !! "description"));
  TokenForm_construct := write_description;
  TokenForm_post_clean := write_expires;
  ConfirmationForm_is_valid := λ data, bool_decide (is_Some (data !! "confirm"));
  generate_key := λ n, "key-" +:+ pretty n;
  TokenTable_configure := save_ordering;
  load_backends := [];
  get_saml_idps := [];
  get_auth_backend_display := λ name, (name, "");
  urlencode := λ params,
    match params with
    | (k, v) :: _ => k +:+ "=" +:+ v
    | [] => ""
    end;
  reverse_social_begin := λ name, Some ("/oauth/login/" +:+ name +:+ "/");
  lower := λ s, s;
|}.

Definition world0 : World := {|
  session_user := None;
  last_login := ∅;
  userconfigs := ∅;
  tokens := ∅;
  update_last_login_connected := true;
  keys_issued := 0;
  log := [];
  messages := [];
|}.

(** A world in which [alice] owns token 1 and last logged in at time 7. *)
Definition alice_token : Token := mkToken "alice" "0123456789abcdef" ∅.

Definition world1 : World :=
  with_last_login {["alice" := 7%N]}
    (with_tokens {[1%positive := alice_token]} world0).

Definition make_request (m : Method) (get post : QueryDict) (u : option string)
  : HttpRequest :=
  mkRequest m get post u "/user/api-tokens/add/" "/user/api-tokens/add/".

Definition credentials : QueryDict :=
  {["username" := "alice"; "password" := "s3cret"]}.

(** One grant: [bob] may view users whose [is_active] column is set. *)
Definition active_only (r : BulkEdit.Row) : bool :=
  match r !! "is_active" with
  | Some (BulkEdit.VBoolean true) => true
  | _ => false
  end.

Definition view_users : Resolver.ObjectPermission BulkEdit.Row :=
  Resolver.mkPermission true {["bob"]} ∅ {["view"]} {["NetBoxUser"]}
    (Some active_only).

(** A second grant: [bob] may change those same users. *)
Definition change_users : Resolver.ObjectPermission BulkEdit.Row :=
  Resolver.mkPermission true {["bob"]} ∅ {["change"]} {["NetBoxUser"]}
    (Some active_only).

Definition bob : Resolver.Principal := Resolver.mkPrincipal "bob" ∅ false.

Definition users_table : gmap positive BulkEdit.Row :=
  {[1%positive := {["first_name" := BulkEdit.VText "Ann";
                    "is_active" := BulkEdit.VBoolean true]};
    2%positive := {["first_name" := BulkEdit.VText "Ben";
                    "is_active" := BulkEdit.VBoolean false]}]}.

End Reference.

(** ** Profile, preferences and password views *)

(** [ProfileView], [NetBoxUserView.get_extra_context], [UserConfigView] and
    [ChangePasswordView] read and write more than the login and token
    views do: the change log, the stored passwords and the session's
    authentication hash.  They run over [Site], which adds these to
    [World]. *)
Module Account.

(** A row of the change log; the views read its [user] and prefetch its
    [changed_object_type]. *)
Record ObjectChange := mkChange {
  change_id : positive;
  change_user : option string;
  changed_object_type : string;
}.

Record AccountEnv := mkAccountEnv {
  base : Env;
  (** [ObjectChange.objects.restrict(user, action)] as a predicate on rows *)
  restrict : string → string → ObjectChange → bool;
  (** [getattr(user, 'ldap_username', None)] *)
  ldap_username : string → option string;
  (** [UserConfigForm(data, instance=userconfig)]: [None] when the data does
      not validate, otherwise the preferences [form.save()] stores in the
      instance's row. *)
  UserConfigForm_clean : QueryDict → Prefs → option Prefs;
  (** [PasswordChangeForm(user=user, data=data)] against the user's stored
      password: [None] when the data does not validate, otherwise the
      password [form.save()] stores. *)
  PasswordChangeForm_clean : string → option string → QueryDict → option string;
  (** [user.get_session_auth_hash()], a function of the stored password *)
  get_session_auth_hash : string → string;
}.

Record Site := mkSite {
  world : World;
  (** [ObjectChange] rows in the queryset's order *)
  object_changes : list ObjectChange;
  (** [User.password] *)
  passwords : gmap string string;
  (** the authentication hash kept in the session *)
  session_hash : option string;
}.

Definition with_world (w : World) (s : Site) : Site :=
  mkSite w (object_changes s) (passwords s) (session_hash s).

Definition with_passwords (m : gmap string string) (s : Site) : Site :=
  mkSite (world s) (object_changes s) m (session_hash s).

Definition with_session_hash (h : option string) (s : Site) : Site :=
  mkSite (world s) (object_changes s) (passwords s) h.

Inductive Value :=
  | Core (v : CtxValue)
  | VChangelogTable (rows : list ObjectChange)
  | VUserConfigForm (data : option QueryDict) (instance : Prefs)
  | VPasswordChangeForm (form_user : string) (data : option QueryDict).

Inductive Response :=
  | Plain (r : HttpResponse)
  | Page (template_name : string) (context : list (string * Value)).

(** [RelatedObjectDoesNotExist] is what [request.user.config] raises for a
    user without a [UserConfig] row. *)
Inductive AccountRaised :=
  | RelatedObjectDoesNotExist
  | Framework (e : Raised).

Definition AView (A : Type) : Type := Site → (AccountRaised + A) * Site.

#[global] Instance AView_ret : MRet AView := λ A a s, (inr a, s).

#[global] Instance AView_bind : MBind AView := λ A B f m s,
  match m s with
  | (inl e, s') => (inl e, s')
  | (inr a, s') => f a s'
  end.

(** A view step written for [World], run on the world of the site. *)
Definition on_world {A : Type} (v : View A) : AView A := λ s,
  match v (world s) with
  | (inl e, w') => (inl (Framework e), with_world w' s)
  | (inr a, w') => (inr a, with_world w' s)
  end.

Section Views.
Context (A : AccountEnv).

(** [LoginRequiredMixin.dispatch] *)
Definition login_required (request : HttpRequest)
    (view : string → AView Response) : AView Response :=
  match user request with
  | Some u => view u
  | None =>
      r ← on_world (lift (redirect_to_login (base A) request));
      mret (Plain r)
  end.

(** [ObjectChange.objects.restrict(request.user, 'view')
      .filter(user=request.user).prefetch_related(...)[:20]] *)
Definition changelog (u : string) (s : Site) : list ObjectChange :=
  take 20
    (filter (λ c, change_user c = Some u)
       (filter (λ c, restrict A u "view" c = true) (object_changes s))).

(** [ProfileView.get] *)
Definition ProfileView_get (request : HttpRequest) : AView Response :=
  login_required request (λ u,
    λ s, (inr (Page "users/profile.html"
                 [("changelog_table", VChangelogTable (changelog u s));
                  ("active_tab", Core (VStr "profile"))]), s)).

(** [NetBoxUserView.get_extra_context(request, instance)], for the
    authenticated [request.user] the object views are served to. *)
Definition NetBoxUserView_get_extra_context (request_user : string)
    (instance : string) (s : Site) : list (string * Value) :=
  [("changelog_table", VChangelogTable (changelog request_user s));
   ("active_tab", Core (VStr "user"))].

(** [request.user.config] *)
Definition user_config (u : string) : AView Prefs := λ s,
  match userconfigs (world s) !! u with
  | Some c => (inr c, s)
  | None => (inl RelatedObjectDoesNotExist, s)
  end.

Definition preferences_page (form : Value) : Response :=
  Page "users/preferences.html"
    [("form", form); ("active_tab", Core (VStr "preferences"))].

(** [UserConfigView.get] *)
Definition UserConfigView_get (request : HttpRequest) : AView Response :=
  login_required request (λ u,
    userconfig ← user_config u;
    mret (preferences_page (VUserConfigForm None userconfig))).

(** [UserConfigView.post] *)
Definition UserConfigView_post (request : HttpRequest) : AView Response :=
  login_required request (λ u,
    userconfig ← user_config u;
    match UserConfigForm_clean A (POST_data request) userconfig with
    | Some saved =>
        on_world (UserConfig_save u saved);;
        on_world (add_message
                    (MsgText SUCCESS "Your preferences have been updated."));;
        r ← on_world (redirect (base A) "users:preferences");
        mret (Plain r)
    | None =>
        mret (preferences_page
                (VUserConfigForm (Some (POST_data request)) userconfig))
    end).

(** Truth value of [getattr(user, 'ldap_username', None)]. *)
Definition is_ldap_user (u : string) : bool :=
  match ldap_username A u with
  | Some name => truthy name
  | None => false
  end.

(** [form.save()] of the password form *)
Definition set_password (u password : string) : AView unit := λ s,
  (inr tt, with_passwords (<[u := password]> (passwords s)) s).

(** [update_session_auth_hash(request, user)] for [user == request.user] *)
Definition update_session_auth_hash (u : string) : AView unit := λ s,
  (inr tt,
   with_session_hash (get_session_auth_hash A <$> passwords s !! u) s).

(** [ChangePasswordView.get] *)
Definition ChangePasswordView_get (request : HttpRequest) : AView Response :=
  login_required request (λ u,
    if is_ldap_user u then
      on_world (add_message
                  (MsgText WARNING
                     "LDAP-authenticated user credentials cannot be changed within NetBox."));;
      r ← on_world (redirect (base A) "users:profile");
      mret (Plain r)
    else
      mret (Page "users/password.html"
              [("form", VPasswordChangeForm u None);
               ("active_tab", Core (VStr "password"))])).

(** [ChangePasswordView.post] *)
Definition ChangePasswordView_post (request : HttpRequest) : AView Response :=
  login_required request (λ u,
    stored ← (λ s, (inr (passwords s !! u), s));
    match PasswordChangeForm_clean A u stored (POST_data request) with
    | Some password =>
        set_password u password;;
        update_session_auth_hash u;;
        on_world (add_message
                    (MsgText SUCCESS "Your password has been changed successfully."));;
        r ← on_world (redirect (base A) "users:profile");
        mret (Plain r)
    | None =>
        mret (Page "users/password.html"
                [("form", VPasswordChangeForm u (Some (POST_data request)));
                 ("active_tab", Core (VStr "change_password"))])
    end).

End Views.

End Account.

(** A site for running the account views: [alice] has preferences and a
    password, [bob] is an LDAP user without a [UserConfig] row, and the
    change log holds rows of both. *)
Module AccountReference.

Definition env : Account.AccountEnv := {|
  Account.base := Reference.env false false;
  Account.restrict := λ _ _ c,
    negb (String.eqb (Account.changed_object_type c) "secret");
  Account.ldap_username := λ u, if String.eqb u "bob" then Some "bob" else None;
  Account.UserConfigForm_clean := λ data prefs,
    match data !! "pagination.per_page" with
    | Some n => Some (<["pagination.per_page" := n]> prefs)
    | None => None
    end;
  Account.PasswordChangeForm_clean := λ _ stored data,
    match data !! "old_password", data !! "new_password1", data !! "new_password2" with
    | Some old, Some new1, Some new2 =>
        if bool_decide (stored = Some old ∧ new1 = new2) then Some new1 else None
    | _, _, _ => None
    end;
  Account.get_session_auth_hash := λ password, "hmac:" +:+ password;
|}.

Definition site : Account.Site := {|
  Account.world :=
    with_userconfigs {["alice" := {["pagination.per_page" := "50"]}]}
      Reference.world1;
  Account.object_changes :=
    [Account.mkChange 3 (Some "bob") "device";
     Account.mkChange 2 (Some "alice") "secret";
     Account.mkChange 1 (Some "alice") "site"];
  Account.passwords := {["alice" := "s3cret"; "bob" := "hunter2"]};
  Account.session_hash := Some "hmac:s3cret";
|}.

End AccountReference.

(** Variants of the reference environment: with social-auth backends, with
    a logout destination that names no route or is no web address, and
    with a landing page of its own. *)
Module Fixtures.

Fixpoint join_params (params : list (string * string)) : string :=
  match params with
  | [] => ""
  | [(k, v)] => k +:+ "=" +:+ v
  | (k, v) :: rest => k +:+ "=" +:+ v +:+ "&" +:+ join_params rest
  end.

Definition with_backends (names idps : list string) (E : Env) : Env := {|
  settings := settings E;
  get_config := get_config E;
  reverse := reverse E;
  MAX_URL_LENGTH := MAX_URL_LENGTH E;
  redirect_max_length := redirect_max_length E;
  check_bracketed_netloc := check_bracketed_netloc E;
  LoginForm_get_user := LoginForm_get_user E;
  now := now E;
  TokenForm_is_valid := TokenForm_is_valid E;
  TokenForm_construct := TokenForm_construct E;
  TokenForm_post_clean := TokenForm_post_clean E;
  ConfirmationForm_is_valid := ConfirmationForm_is_valid E;
  generate_key := generate_key E;
  TokenTable_configure := TokenTable_configure E;
  load_backends := names;
  get_saml_idps := idps;
  get_auth_backend_display := get_auth_backend_display E;
  urlencode := join_params;
  reverse_social_begin := reverse_social_begin E;
  lower := lower E;
|}.

Definition with_settings (st : Settings) (E : Env) : Env := {|
  settings := st;
  get_config := get_config E;
  reverse := reverse E;
  MAX_URL_LENGTH := MAX_URL_LENGTH E;
  redirect_max_length := redirect_max_length E;
  check_bracketed_netloc := check_bracketed_netloc E;
  LoginForm_get_user := LoginForm_get_user E;
  now := now E;
  TokenForm_is_valid := TokenForm_is_valid E;
  TokenForm_construct := TokenForm_construct E;
  TokenForm_post_clean := TokenForm_post_clean E;
  ConfirmationForm_is_valid := ConfirmationForm_is_valid E;
  generate_key := generate_key E;
  TokenTable_configure := TokenTable_configure E;
  load_backends := load_backends E;
  get_saml_idps := get_saml_idps E;
  get_auth_backend_display := get_auth_backend_display E;
  urlencode := urlencode E;
  reverse_social_begin := reverse_social_begin E;
  lower := lower E;
|}.

Definition env_oauth : Env :=
  with_backends ["github"; "okta"] [] (Reference.env false false).

Definition env_bad_logout : Env :=
  with_settings (mkSettings "/login/" "/" "nowhere" false)
    (Reference.env false false).

Definition env_mail_logout : Env :=
  with_settings (mkSettings "/login/" "/" "mailto:admin@example.com" false)
    (Reference.env false false).

Definition env_landing : Env :=
  with_settings (mkSettings "/login/" "/dashboard/" "home" false)
    (Reference.env false false).

Definition env_retrieval : Env := Reference.env false true.

End Fixtures.

(** * Properties *)

(** ** The view monad *)

Ltac unfold_view :=
  unfold mbind, View_bind, mret, View_ret, lift, raise, modify, gets,
    logger, add_message in *.

Lemma bind_inr {A B : Type} (m : View A) (f : A → View B) (w w' : World) (a : A) :
  m w = (inr a, w') → (m ≫= f) w = f a w'.
Proof. intros H. unfold mbind, View_bind. by rewrite H. Qed.

Lemma bind_inl {A B : Type} (m : View A) (f : A → View B) (w w' : World)
    (e : Raised) :
  m w = (inl e, w') → (m ≫= f) w = (inl e, w').
Proof. intros H. unfold mbind, View_bind. by rewrite H. Qed.

Lemma truthy_ne (s : string) : truthy s = true ↔ s ≠ "".
Proof. destruct s; simpl; split; intros; congruence. Qed.

(** ** URLs *)

Section UrlProperties.
Import Django Url.

Ltac each_char a := destruct a as [[] [] [] [] [] [] [] []]; vm_compute; intuition congruence.

Lemma is_uri_char_plain (a : ascii) :
  is_uri_char a = true →
  isspace a = false ∧ is_c0_control_or_space a = false
  ∧ is_unsafe_url_byte a = false ∧ Ascii.eqb a "\" = false
  ∧ quote_char a = String a EmptyString.
Proof. each_char a. Qed.

Lemma is_scheme_char_plain (a : ascii) :
  is_scheme_char a = true →
  isspace a = false ∧ is_c0_control_or_space a = false
  ∧ is_unsafe_url_byte a = false ∧ Ascii.eqb a ":" = false.
Proof. each_char a. Qed.

Lemma is_ascii_alpha_not_slash (a : ascii) :
  is_ascii_alpha a = true → Ascii.eqb a "/" = false.
Proof. each_char a. Qed.

Lemma is_alnum_plain (a : ascii) :
  is_ascii_alpha a || is_ascii_digit a = true →
  isspace a = false ∧ is_c0_control_or_space a = false
  ∧ is_unsafe_url_byte a = false
  ∧ (Ascii.eqb a "/" || Ascii.eqb a "?" || Ascii.eqb a "#") = false.
Proof. each_char a. Qed.

Lemma rstrip_cons (a : ascii) (s : string) :
  isspace a = false → rstrip (String a s) = String a (rstrip s).
Proof. intros Ha. simpl. rewrite Ha. by destruct (rstrip s). Qed.

Lemma rstrip_plain (f : ascii → bool) (s : string) :
  (∀ a, f a = true → isspace a = false) →
  string_forallb f s = true → rstrip s = s.
Proof.
  intros Hf. induction s as [|a s IH]; [done|].
  simpl string_forallb. intros [Ha Hs]%andb_prop.
  rewrite rstrip_cons by auto. by rewrite IH.
Qed.

Lemma rstrip_app (f : ascii → bool) (p s : string) :
  (∀ a, f a = true → isspace a = false) →
  string_forallb f p = true → rstrip (p +:+ s) = p +:+ rstrip s.
Proof.
  intros Hf. induction p as [|a p IH]; [done|].
  simpl string_forallb. intros [Ha Hp]%andb_prop.
  change (String a p +:+ s) with (String a (p +:+ s)).
  rewrite rstrip_cons by auto. rewrite IH by done. done.
Qed.

Lemma remove_chars_plain (chars f : ascii → bool) (s : string) :
  (∀ a, f a = true → chars a = false) →
  string_forallb f s = true → remove_chars chars s = s.
Proof.
  intros Hf. induction s as [|a s IH]; [done|].
  simpl string_forallb. intros [Ha Hs]%andb_prop.
  simpl. rewrite (Hf a Ha). by rewrite IH.
Qed.

Lemma remove_chars_app (chars f : ascii → bool) (p s : string) :
  (∀ a, f a = true → chars a = false) →
  string_forallb f p = true →
  remove_chars chars (p +:+ s) = p +:+ remove_chars chars s.
Proof.
  intros Hf. induction p as [|a p IH]; [done|].
  simpl string_forallb. intros [Ha Hp]%andb_prop.
  change (String a p +:+ s) with (String a (p +:+ s)).
  simpl. rewrite (Hf a Ha). by rewrite IH.
Qed.

Lemma replace_backslash_plain (f : ascii → bool) (s : string) :
  (∀ a, f a = true → Ascii.eqb a "\" = false) →
  string_forallb f s = true → replace_backslash s = s.
Proof.
  intros Hf. induction s as [|a s IH]; [done|].
  simpl string_forallb. intros [Ha Hs]%andb_prop.
  simpl. rewrite (Hf a Ha). by rewrite IH.
Qed.

Lemma iri_to_uri_plain (s : string) :
  string_forallb is_uri_char s = true → iri_to_uri s = s.
Proof.
  induction s as [|a s IH]; [done|].
  simpl string_forallb. intros [Ha Hs]%andb_prop.
  simpl. destruct (is_uri_char_plain a Ha) as (_ & _ & _ & _ & ->).
  by rewrite IH.
Qed.

(** [partition] finds the first occurrence. *)
Lemma partition_spec (c : ascii) (s head rest : string) :
  partition c s = Some (head, rest) →
  s = head +:+ String c rest.
Proof.
  revert head. induction s as [|a s IH]; intros head; [done|].
  simpl. destruct (Ascii.eqb_spec a c) as [->|Hne].
  - by intros [= <- <-].
  - destruct (partition c s) as [[p q]|]; [|done].
    intros [= <- <-]. by rewrite (IH p eq_refl).
Qed.

Lemma partition_app (c : ascii) (f : ascii → bool) (head rest : string) :
  (∀ a, f a = true → Ascii.eqb a c = false) →
  string_forallb f head = true →
  partition c (head +:+ String c rest) = Some (head, rest).
Proof.
  intros Hf. induction head as [|a head IH].
  - intros _. simpl. change ("" +:+ String c rest) with (String c rest).
    simpl. by rewrite Ascii.eqb_refl.
  - simpl string_forallb. intros [Ha Hp]%andb_prop.
    change (String a head +:+ String c rest) with (String a (head +:+ String c rest)).
    simpl. rewrite (Hf a Ha). by rewrite IH.
Qed.

(** A URL that does not begin with a letter has no scheme. *)
Lemma split_scheme_none (a : ascii) (s : string) :
  is_ascii_alpha a = false → split_scheme (String a s) = (EmptyString, String a s).
Proof.
  intros Ha. unfold split_scheme.
  destruct (partition ":" (String a s)) as [[[|c p] q]|] eqn:Hp; try done.
  simpl in Hp. destruct (Ascii.eqb a ":"); [done|].
  destruct (partition ":" s) as [[p' q']|]; [|done].
  injection Hp as <- <- <-. by rewrite Ha.
Qed.


Lemma split_netloc_none (a c : ascii) (s : string) :
  Ascii.eqb c "/" = false → split_netloc (String a (String c s)) = EmptyString.
Proof.
  intros Hc. unfold split_netloc.
  destruct a as [[] [] [] [] [] [] [] []]; try done.
  destruct c as [[] [] [] [] [] [] [] []]; done.
Qed.

Lemma startswith_slash (c : ascii) (s : string) :
  startswith "/" (String c s) = Ascii.eqb c "/".
Proof.
  unfold startswith. cbn [String.prefix].
  destruct (ascii_dec "/" c) as [<-|Hne].
  - destruct s; by rewrite Ascii.eqb_refl.
  - symmetry. apply Ascii.eqb_neq. congruence.
Qed.

(** The parts of a path on this site, as [urlsplit] and the check read
    it. *)
Lemma is_local_path_parts (url : string) :
  is_local_path url = true →
  strip url = url ∧ replace_backslash url = url
  ∧ scheme_netloc url = (EmptyString, EmptyString)
  ∧ startswith "///" url = false ∧ first_is_control url = false
  ∧ truthy url = true ∧ iri_to_uri url = url.
Proof.
  destruct url as [|a rest]; [done|].
  destruct (Ascii.eqb_spec a "/") as [->|Hne]; cycle 1.
  { unfold is_local_path. destruct a as [[] [] [] [] [] [] [] []]; done. }
  unfold is_local_path. intros [Hstart Hrest]%andb_prop.
  assert (Hall : string_forallb is_uri_char (String "/" rest) = true)
    by (simpl; by rewrite Hrest).
  assert (Hsecond : ∀ c s, rest = String c s → Ascii.eqb c "/" = false).
  { intros c s ->. rewrite startswith_slash in Hstart.
    by destruct (Ascii.eqb c "/"). }
  repeat split.
  - unfold strip. change (lstrip (String "/" rest)) with (String "/"%char rest).
    apply (rstrip_plain is_uri_char); [|done].
    intros c Hc. by destruct (is_uri_char_plain c Hc).
  - apply (replace_backslash_plain is_uri_char); [|done].
    intros c Hc. by destruct (is_uri_char_plain c Hc) as (_ & _ & _ & ? & _).
  - unfold scheme_netloc.
    change (lstrip_chars is_c0_control_or_space (String "/" rest))
      with (String "/"%char rest).
    rewrite (remove_chars_plain _ is_uri_char); [|
      intros c Hc; by destruct (is_uri_char_plain c Hc) as (_ & _ & ? & _)|done].
    rewrite split_scheme_none by done.
    destruct rest as [|c s]; [done|].
    by rewrite split_netloc_none by eauto.
  - unfold startswith. cbn [String.prefix].
    destruct (ascii_dec "/" "/"); [|done].
    destruct rest as [|c s]; [done|].
    specialize (Hsecond c s eq_refl). cbn [String.prefix].
    destruct (ascii_dec "/" c) as [<-|]; done.
  - by apply iri_to_uri_plain.
Qed.

Lemma local_path_accepted (max_length : option N) (url : string) :
  is_local_path url = true → exceeds max_length url = false →
  Django.url_has_allowed_host_and_scheme max_length url = true.
Proof.
  intros Hl Hlen.
  destruct (is_local_path_parts url Hl) as (Hs & Hb & Hp & H3 & Hc & Ht & _).
  unfold Django.url_has_allowed_host_and_scheme. cbv zeta.
  rewrite Hs, Hb, Ht.
  unfold _url_has_allowed_host_and_scheme. rewrite H3, Hlen, Hp, Hc. done.
Qed.

Lemma scheme_netloc_of_scheme (c : ascii) (p rest : string) :
  is_ascii_alpha c && string_forallb is_scheme_char (String c p) = true →
  scheme_netloc (String c p +:+ String ":" rest)
  = (lower (String c p),
     split_netloc (remove_chars is_unsafe_url_byte rest)).
Proof.
  intros [Hc Hall]%andb_prop.
  assert (Hc' : is_scheme_char c = true) by (simpl in Hall; by apply andb_prop in Hall as [? _]).
  destruct (is_scheme_char_plain c Hc') as (_ & Hc0 & _).
  unfold scheme_netloc.
  change (String c p +:+ String ":" rest) with (String c (p +:+ String ":" rest)).
  simpl lstrip_chars. rewrite Hc0.
  change (String c (p +:+ String ":" rest)) with (String c p +:+ String ":" rest).
  rewrite (remove_chars_app _ is_scheme_char); [|
    intros a Ha; by destruct (is_scheme_char_plain a Ha) as (_ & _ & ? & _)|done].
  change (remove_chars is_unsafe_url_byte (String ":" rest))
    with (String ":"%char (remove_chars is_unsafe_url_byte rest)).
  unfold split_scheme.
  rewrite (partition_app _ is_scheme_char); [|
    intros a Ha; by destruct (is_scheme_char_plain a Ha) as (_ & _ & _ & ?)|done].
  by rewrite Hc, Hall.
Qed.

Lemma has_scheme_parts (url : string) :
  has_scheme url = true →
  ∃ c p rest, url = String c p +:+ String ":" rest
    ∧ is_ascii_alpha c && string_forallb is_scheme_char (String c p) = true.
Proof.
  unfold has_scheme.
  destruct (partition ":" url) as [[[|c p] q]|] eqn:Hp; try done.
  intros [Hc Hp']%andb_prop. exists c, p, q. split; [by apply partition_spec|].
  simpl. rewrite Hc, Hp'. unfold is_scheme_char. by rewrite Hc.
Qed.

(** Whatever follows, a URL in which [urlsplit] sees a scheme or a
    network location is refused. *)
Lemma refused_of_parts (max_length : option N) (url scheme netloc : string) :
  scheme_netloc url = (scheme, netloc) →
  truthy scheme || truthy netloc = true →
  _url_has_allowed_host_and_scheme max_length url = false.
Proof.
  intros Hp Hseen. unfold _url_has_allowed_host_and_scheme. rewrite Hp.
  destruct (startswith "///" url || exceeds max_length url); [done|].
  destruct scheme, netloc; try done; simpl;
    by destruct (first_is_control url).
Qed.

Lemma has_scheme_rejected (max_length : option N) (url : string) :
  has_scheme url = true →
  Django.url_has_allowed_host_and_scheme max_length url = false.
Proof.
  intros (c & p & rest & -> & Hvalid)%has_scheme_parts.
  pose proof Hvalid as [Hc Hall]%andb_prop.
  assert (Hc' : is_scheme_char c = true)
    by (simpl in Hall; by apply andb_prop in Hall as [? _]).
  destruct (is_scheme_char_plain c Hc') as (Hsp & _).
  unfold Django.url_has_allowed_host_and_scheme. cbv zeta.
  assert (strip (String c p +:+ String ":" rest)
          = String c p +:+ String ":" (rstrip rest)) as ->.
  { unfold strip.
    change (String c p +:+ String ":" rest) with (String c (p +:+ String ":" rest)).
    simpl lstrip. rewrite Hsp.
    change (String c (p +:+ String ":" rest)) with (String c p +:+ String ":" rest).
    rewrite (rstrip_app is_scheme_char); [|
      intros a Ha; by destruct (is_scheme_char_plain a Ha)|done].
    by rewrite rstrip_cons. }
  rewrite (refused_of_parts _ _ _ _ (scheme_netloc_of_scheme c p _ Hvalid)); [|done].
  by rewrite andb_false_r.
Qed.

Lemma network_path_rejected (max_length : option N) (url : string) :
  is_network_path url = true →
  Django.url_has_allowed_host_and_scheme max_length url = false.
Proof.
  destruct url as [|a [|b [|h rest]]]; try done;
    try (destruct a as [[] [] [] [] [] [] [] []]; done);
    try (destruct a as [[] [] [] [] [] [] [] []]; try done;
         destruct b as [[] [] [] [] [] [] [] []]; done).
  unfold is_network_path.
  destruct (Ascii.eqb_spec a "/") as [->|Hne]; cycle 1.
  { destruct a as [[] [] [] [] [] [] [] []]; done. }
  destruct (Ascii.eqb_spec b "/") as [->|Hne]; cycle 1.
  { destruct b as [[] [] [] [] [] [] [] []]; done. }
  intros Hh. destruct (is_alnum_plain h Hh) as (Hsp & Hc0 & Hun & Hdelim).
  unfold Django.url_has_allowed_host_and_scheme. cbv zeta.
  assert (strip (String "/" (String "/" (String h rest)))
          = String "/" (String "/" (String h (rstrip rest)))) as ->.
  { unfold strip. change (lstrip (String "/" ?s)) with (String "/"%char s).
    by rewrite !rstrip_cons. }
  rewrite (refused_of_parts _ _ EmptyString
             (String h (take_netloc (remove_chars is_unsafe_url_byte (rstrip rest)))));
    [by rewrite andb_false_r| |done].
  unfold scheme_netloc.
  change (lstrip_chars is_c0_control_or_space (String "/" ?s)) with (String "/"%char s).
  change (remove_chars is_unsafe_url_byte (String "/" (String "/" (String h ?s))))
    with (String "/"%char (String "/"%char (remove_chars is_unsafe_url_byte (String h s)))).
  simpl remove_chars. rewrite Hun.
  rewrite split_scheme_none by done.
  unfold split_netloc. simpl take_netloc. by rewrite Hdelim.
Qed.

(** An absolute URL never passes the check. *)
Lemma absolute_url_rejected (max_length : option N) (url : string) :
  is_absolute_url url = true →
  Django.url_has_allowed_host_and_scheme max_length url = false.
Proof.
  intros [?|?]%orb_prop;
    [by apply has_scheme_rejected|by apply network_path_rejected].
Qed.

(** What passes the check names no host. *)
Lemma accepted_names_no_host (max_length : option N) (url : string) :
  Django.url_has_allowed_host_and_scheme max_length url = true →
  names_host url = false.
Proof.
  unfold Django.url_has_allowed_host_and_scheme, names_host. cbv zeta.
  intros [[_ H1]%andb_prop H2]%andb_prop.
  assert (Hone : ∀ u, _url_has_allowed_host_and_scheme max_length u = true →
            truthy (scheme_netloc u).1 || truthy (scheme_netloc u).2 = false).
  { intros u Hu. destruct (scheme_netloc u) as [scheme netloc] eqn:Hp.
    destruct (truthy scheme || truthy netloc) eqn:Hseen; [|done].
    by rewrite (refused_of_parts _ _ _ _ Hp Hseen) in Hu. }
  by rewrite (Hone _ H1), (Hone _ H2).
Qed.

Lemma isspace_plain (a : ascii) :
  isspace a = true →
  is_ascii_alpha a = false ∧ Ascii.eqb a ":" = false ∧ Ascii.eqb a "/" = false
  ∧ Ascii.eqb a "[" = false ∧ Ascii.eqb a "]" = false
  ∧ (is_c0_control_or_space a = false → is_unsafe_url_byte a = false).
Proof. each_char a. Qed.

Lemma visible_first (a : ascii) :
  isspace a = false → is_control a = false →
  is_c0_control_or_space a = false ∧ is_unsafe_url_byte a = false.
Proof. each_char a. Qed.

Lemma lstrip_split (s : string) :
  ∃ lead, s = lead +:+ lstrip s ∧ string_forallb isspace lead = true.
Proof.
  induction s as [|a s (lead & Hs & Hlead)]; [by exists EmptyString|].
  simpl. destruct (isspace a) eqn:Ha.
  - exists (String a lead). split; [|by simpl; rewrite Ha].
    change (String a lead +:+ lstrip s) with (String a (lead +:+ lstrip s)).
    by rewrite <- Hs.
  - by exists EmptyString.
Qed.

Lemma lstrip_first (s : string) (a : ascii) (rest : string) :
  lstrip s = String a rest → isspace a = false.
Proof.
  induction s as [|b s IH]; [done|]. simpl.
  destruct (isspace b) eqn:Hb; [done|]. by intros [= <- _].
Qed.

Lemma rstrip_split (s : string) :
  ∃ trail, s = rstrip s +:+ trail ∧ string_forallb isspace trail = true.
Proof.
  induction s as [|a s (trail & Hs & Htrail)]; [by exists EmptyString|].
  simpl. destruct (rstrip s) as [|b kept] eqn:Hr.
  - destruct (isspace a) eqn:Ha.
    + exists (String a s). split; [done|]. simpl. rewrite Ha.
      change ("" +:+ trail) with trail in Hs. by rewrite Hs.
    + exists trail. split; [|done].
      change (String a "" +:+ trail) with (String a ("" +:+ trail)). by rewrite <- Hs.
  - exists trail. split; [|done].
    change (String a (String b kept) +:+ trail)
      with (String a (String b kept +:+ trail)). by rewrite <- Hs.
Qed.

Lemma remove_chars_append (chars : ascii → bool) (p s : string) :
  remove_chars chars (p +:+ s) = remove_chars chars p +:+ remove_chars chars s.
Proof.
  induction p as [|a p IH]; [done|].
  change (String a p +:+ s) with (String a (p +:+ s)). simpl.
  destruct (chars a); [done|].
  change (String a (remove_chars chars p) +:+ remove_chars chars s)
    with (String a (remove_chars chars p +:+ remove_chars chars s)).
  by rewrite IH.
Qed.

Lemma remove_chars_forallb (chars f : ascii → bool) (s : string) :
  string_forallb f s = true → string_forallb f (remove_chars chars s) = true.
Proof.
  induction s as [|a s IH]; [done|]. simpl.
  intros [Ha Hs]%andb_prop. destruct (chars a); [by apply IH|].
  simpl. by rewrite Ha, IH.
Qed.

(** Stripping leading C0 characters after leading white space: either all
    of the white space went, or what is left begins with a white-space
    character that is no C0 character. *)
Lemma lstrip_chars_lead (lead s : string) :
  string_forallb isspace lead = true →
  lstrip_chars is_c0_control_or_space (lead +:+ s)
    = lstrip_chars is_c0_control_or_space s
  ∨ ∃ b rest, lstrip_chars is_c0_control_or_space (lead +:+ s) = String b rest
      ∧ isspace b = true ∧ is_c0_control_or_space b = false.
Proof.
  induction lead as [|a lead IH]; [by left|].
  simpl string_forallb. intros [Ha Hlead]%andb_prop.
  change (String a lead +:+ s) with (String a (lead +:+ s)). simpl.
  destruct (is_c0_control_or_space a) eqn:Hc0; [by apply IH|].
  right. by eexists _, _.
Qed.

Lemma partition_append_none (c : ascii) (s t : string) :
  partition c s = None → partition c t = None → partition c (s +:+ t) = None.
Proof.
  induction s as [|a s IH]; [done|].
  change (String a s +:+ t) with (String a (s +:+ t)). simpl.
  destruct (Ascii.eqb a c); [done|].
  destruct (partition c s) as [[p q]|]; [done|]. intros _ Ht. by rewrite IH.
Qed.

Lemma partition_append_some (c : ascii) (s t p q : string) :
  partition c s = Some (p, q) → partition c (s +:+ t) = Some (p, q +:+ t).
Proof.
  revert p. induction s as [|a s IH]; [done|]. intros p.
  change (String a s +:+ t) with (String a (s +:+ t)). simpl.
  destruct (Ascii.eqb a c); [by intros [= <- <-]|].
  destruct (partition c s) as [[p' q']|]; [|done].
  intros [= <- <-]. by rewrite (IH p' eq_refl).
Qed.

Lemma partition_space (c : ascii) (t : string) :
  (∀ a, isspace a = true → Ascii.eqb a c = false) →
  string_forallb isspace t = true → partition c t = None.
Proof.
  intros Hc. induction t as [|a t IH]; [done|]. simpl.
  intros [Ha Ht]%andb_prop. rewrite (Hc a Ha). by rewrite IH.
Qed.

(** White space appended to a URL without a scheme gives it none. *)
Lemma split_scheme_append (url t : string) :
  string_forallb isspace t = true →
  (split_scheme url).1 = EmptyString →
  split_scheme url = (EmptyString, url)
  ∧ split_scheme (url +:+ t) = (EmptyString, url +:+ t).
Proof.
  intros Ht. unfold split_scheme.
  assert (Hnone : partition ":" t = None).
  { apply partition_space; [|done]. intros a Ha.
    by destruct (isspace_plain a Ha) as (_ & ? & _). }
  destruct (partition ":" url) as [[[|c p] q]|] eqn:Hp.
  - by rewrite (partition_append_some _ _ t _ _ Hp).
  - rewrite (partition_append_some _ _ t _ _ Hp).
    destruct (is_ascii_alpha c && string_forallb is_scheme_char (String c p));
      [done|done].
  - by rewrite (partition_append_none _ _ _ Hp Hnone).
Qed.

Lemma take_netloc_space (t : string) :
  string_forallb isspace t = true →
  contains_char "[" (take_netloc t) = false
  ∧ contains_char "]" (take_netloc t) = false.
Proof.
  induction t as [|a t IH]; [done|]. simpl.
  intros [Ha Ht]%andb_prop.
  destruct (Ascii.eqb a "/" || Ascii.eqb a "?" || Ascii.eqb a "#"); [done|].
  simpl. destruct (isspace_plain a Ha) as (_ & _ & _ & -> & -> & _).
  by apply IH.
Qed.

Lemma take_netloc_append (s t : string) :
  take_netloc s = EmptyString →
  take_netloc (s +:+ t) = EmptyString ∨ s = EmptyString.
Proof.
  destruct s as [|a s]; [by right|]. intros Hs. left.
  change (String a s +:+ t) with (String a (s +:+ t)). simpl in *.
  by destruct (Ascii.eqb a "/" || Ascii.eqb a "?" || Ascii.eqb a "#").
Qed.

Lemma split_netloc_first (a : ascii) (s : string) :
  Ascii.eqb a "/" = false → split_netloc (String a s) = EmptyString.
Proof.
  intros Ha. unfold split_netloc. destruct a as [[] [] [] [] [] [] [] []]; done.
Qed.

Lemma split_netloc_slashes (s : string) :
  split_netloc (String "/" (String "/" s)) = take_netloc s.
Proof. done. Qed.

(** White space appended to a URL without a network location gives it at
    most one without square brackets. *)
Lemma split_netloc_append (a : ascii) (url t : string) :
  string_forallb isspace t = true →
  split_netloc (String a url) = EmptyString →
  contains_char "[" (split_netloc (String a url +:+ t)) = false
  ∧ contains_char "]" (split_netloc (String a url +:+ t)) = false.
Proof.
  intros Ht Hnet.
  change (String a url +:+ t) with (String a (url +:+ t)).
  destruct (Ascii.eqb_spec a "/") as [->|Ha]; cycle 1.
  { rewrite split_netloc_first; [done|]. by apply Ascii.eqb_neq. }
  destruct url as [|b url].
  { change ("" +:+ t) with t. destruct t as [|c t]; [done|].
    simpl in Ht. apply andb_prop in Ht as [Hc _].
    rewrite split_netloc_none; [done|].
    by destruct (isspace_plain c Hc) as (_ & _ & ? & _). }
  change (String b url +:+ t) with (String b (url +:+ t)).
  destruct (Ascii.eqb_spec b "/") as [->|Hb]; cycle 1.
  { rewrite split_netloc_none; [done|]. by apply Ascii.eqb_neq. }
  rewrite split_netloc_slashes in *.
  destruct (take_netloc_append url t Hnet) as [->| ->]; [done|].
  by apply take_netloc_space.
Qed.

(** What passes the check is a URL [HttpResponseRedirect] accepts. *)
Lemma accepted_parts (max_length : option N) (url : string) :
  Django.url_has_allowed_host_and_scheme max_length url = true →
  (scheme_netloc url).1 = EmptyString
  ∧ contains_char "[" (scheme_netloc url).2 = false
  ∧ contains_char "]" (scheme_netloc url).2 = false.
Proof.
  unfold Django.url_has_allowed_host_and_scheme. cbv zeta.
  intros [[Hne Hone]%andb_prop _]%andb_prop.
  destruct (lstrip_split url) as (lead & Hurl & Hlead).
  destruct (rstrip_split (lstrip url)) as (trail & Hstripped & Htrail).
  fold (strip url) in Hstripped.
  destruct (strip url) as [|a s] eqn:Hs; [done|].
  assert (Hsp : isspace a = false).
  { destruct (lstrip url) as [|b r] eqn:Hl; [done|].
    pose proof (lstrip_first url b r Hl) as Hb.
    unfold strip in Hs. rewrite Hl, rstrip_cons in Hs by done.
    by injection Hs as <- _. }
  assert (Hparts : scheme_netloc (String a s) = (EmptyString, EmptyString)
                   ∧ is_control a = false).
  { unfold _url_has_allowed_host_and_scheme in Hone.
    destruct (startswith "///" _ || exceeds _ _); [done|].
    destruct (scheme_netloc (String a s)) as [scheme netloc].
    destruct scheme, netloc; simpl in Hone; destruct (is_control a); done. }
  destruct Hparts as [Hparts Hctl].
  destruct (visible_first a Hsp Hctl) as [Hc0 Hunsafe].
  unfold scheme_netloc in *.
  rewrite Hurl.
  destruct (lstrip_chars_lead lead (lstrip url) Hlead)
    as [->|(b & rest & -> & Hb & Hbc0)].
  - rewrite Hstripped.
    change (String a s +:+ trail) with (String a (s +:+ trail)).
    simpl lstrip_chars in *. rewrite Hc0 in *.
    change (String a (s +:+ trail)) with (String a s +:+ trail).
    rewrite remove_chars_append.
    set (T := remove_chars is_unsafe_url_byte trail).
    assert (HT : string_forallb isspace T = true)
      by by apply remove_chars_forallb.
    simpl remove_chars in *. rewrite Hunsafe in *.
    set (X := remove_chars is_unsafe_url_byte s) in *.
    destruct (split_scheme (String a X)) as [scheme rest] eqn:Hsch.
    injection Hparts as -> Hnet.
    destruct (split_scheme_append (String a X) T HT) as [Hsame Happ];
      [by rewrite Hsch|].
    rewrite Hsch in Hsame. injection Hsame as ->.
    rewrite Happ. cbn [fst snd]. split; [done|].
    by apply split_netloc_append.
  - destruct (isspace_plain b Hb) as (Halpha & _ & Hslash & _ & _ & Hun).
    simpl remove_chars. rewrite (Hun Hbc0).
    rewrite split_scheme_none by done. cbn [fst snd].
    by rewrite split_netloc_first.
Qed.

End UrlProperties.

Section RedirectProperties.
Context (E : Env).

(** A response built by [HttpResponseRedirect] is a redirect to the
    encoded URL, with no cookie touched. *)
Lemma HttpResponseRedirect_inr (to : string) (r : HttpResponse) :
  HttpResponseRedirect E to = inr r →
  r = mkResponse (Redirect (Django.iri_to_uri to)) [].
Proof.
  unfold HttpResponseRedirect.
  destruct (Django.exceeds _ _); [done|].
  destruct (Django.urlsplit_raises _ _); [done|].
  destruct (_ && _); [done|]. by intros [= <-].
Qed.

Lemma HttpResponseRedirect_inl (to : string) (e : Raised) :
  HttpResponseRedirect E to = inl e →
  e = ValueError ∨ e = DisallowedRedirect.
Proof.
  unfold HttpResponseRedirect.
  destruct (Django.exceeds _ _); [intros [= <-]; by right|].
  destruct (Django.urlsplit_raises _ _); [intros [= <-]; by left|].
  destruct (_ && _); [|done]. intros [= <-]. by right.
Qed.

(** A path on this site is redirected to as it is. *)
Lemma HttpResponseRedirect_local_path (to : string) :
  Url.is_local_path to = true →
  Django.exceeds (redirect_max_length E) to = false →
  HttpResponseRedirect E to = inr (mkResponse (Redirect to) []).
Proof.
  intros Hl Hlen.
  destruct (is_local_path_parts to Hl) as (_ & _ & Hp & _ & _ & _ & Hiri).
  unfold HttpResponseRedirect, Django.urlsplit_raises. rewrite Hlen, Hp, Hiri. done.
Qed.

(** What passes the check is redirected to, unless it is too long: no
    other error is raised. *)
Lemma HttpResponseRedirect_accepted (url : string) :
  url_has_allowed_host_and_scheme E url = true →
  HttpResponseRedirect E url
  = if Django.exceeds (redirect_max_length E) url then inl DisallowedRedirect
    else inr (mkResponse (Redirect (Django.iri_to_uri url)) []).
Proof.
  intros (Hs & Ho & Hc)%accepted_parts.
  unfold HttpResponseRedirect, Django.urlsplit_raises.
  by rewrite Hs, Ho, Hc.
Qed.

End RedirectProperties.

(** ** Login and logout *)

Section LoginProperties.
Context (E : Env).

(** The response of [redirect_to_next] does not depend on the world: the
    function only writes to the log. *)
Lemma redirect_to_next_response (request : HttpRequest) (w : World) :
  fst (redirect_to_next E request w) =
    let redirect_url :=
      default (LOGIN_REDIRECT_URL (settings E)) (request_data request !! "next") in
    if truthy redirect_url && url_has_allowed_host_and_scheme E redirect_url
    then
      if Django.exceeds (redirect_max_length E) redirect_url
      then inl DisallowedRedirect
      else inr (mkResponse (Redirect (Django.iri_to_uri redirect_url)) [])
    else match reverse E "home" with
         | Some home => HttpResponseRedirect E home
         | None => inl (NoReverseMatch "home")
         end.
Proof.
  unfold redirect_to_next, reverse_url, reverse_or_raise. cbv zeta.
  destruct (truthy _ && _) eqn:Hsafe; unfold_view; simpl.
  - apply andb_prop in Hsafe as [_ Hsafe].
    by apply HttpResponseRedirect_accepted.
  - destruct (truthy _); simpl; destruct (reverse E "home"); reflexivity.
Qed.

Lemma redirect_to_next_world (request : HttpRequest) (w : World) :
  let w' := snd (redirect_to_next E request w) in
  session_user w' = session_user w ∧ last_login w' = last_login w
  ∧ userconfigs w' = userconfigs w ∧ tokens w' = tokens w
  ∧ update_last_login_connected w' = update_last_login_connected w
  ∧ messages w' = messages w.
Proof.
  unfold redirect_to_next, reverse_url, reverse_or_raise. cbv zeta.
  destruct (truthy _ && _); unfold_view; simpl.
  - done.
  - destruct (truthy _); simpl; destruct (reverse E "home"); done.
Qed.

(** Whatever [redirect_to_next] answers is a redirect, to the home page or
    to a target that passes the check and so names no host. *)
Lemma redirect_to_next_redirects (request : HttpRequest) (w : World)
    (r : HttpResponse) :
  fst (redirect_to_next E request w) = inr r →
  ∃ target, r = mkResponse (Redirect (Django.iri_to_uri target)) []
    ∧ (reverse E "home" = Some target
       ∨ url_has_allowed_host_and_scheme E target = true
         ∧ Url.names_host target = false).
Proof.
  rewrite redirect_to_next_response. cbv zeta.
  destruct (truthy _ && _) eqn:Hsafe.
  - destruct (Django.exceeds _ _); [done|].
    intros [= <-]. eexists. split; [done|]. right.
    apply andb_true_iff in Hsafe as [_ Hsafe]. split; [done|].
    by apply accepted_names_no_host in Hsafe.
  - destruct (reverse E "home") eqn:Hhome; [|done].
    intros ->%HttpResponseRedirect_inr. eexists. split; [done|]. by left.
Qed.

(** The target of the redirect for the kinds of [next]. *)
Lemma redirect_to_next_absolute (request : HttpRequest) (w : World) (n : string) :
  request_data request !! "next" = Some n →
  Url.is_absolute_url n = true →
  fst (redirect_to_next E request w) =
    match reverse E "home" with
    | Some home => HttpResponseRedirect E home
    | None => inl (NoReverseMatch "home")
    end.
Proof.
  intros Hnext Hn. rewrite redirect_to_next_response, Hnext. simpl.
  unfold url_has_allowed_host_and_scheme.
  by rewrite (absolute_url_rejected _ _ Hn), andb_false_r.
Qed.

Lemma redirect_to_next_local (request : HttpRequest) (w : World) (n : string) :
  request_data request !! "next" = Some n →
  Url.is_local_path n = true →
  within_length_limits E n = true →
  fst (redirect_to_next E request w) = inr (mkResponse (Redirect n) []).
Proof.
  intros Hnext Hn [Hlen Hredirect]%andb_prop.
  apply negb_true_iff in Hlen, Hredirect.
  rewrite redirect_to_next_response, Hnext. simpl.
  unfold url_has_allowed_host_and_scheme.
  rewrite (local_path_accepted _ _ Hn Hlen), andb_true_r, Hredirect.
  by destruct (is_local_path_parts n Hn) as (_ & _ & _ & _ & _ & -> & ->).
Qed.

(** With the home page at a path on this site, the answer is a redirect
    whatever was submitted, short of a URL over the length
    [HttpResponseRedirect] admits. *)
Lemma redirect_to_next_succeeds (request : HttpRequest) (w : World)
    (home : string) :
  reverse E "home" = Some home → Url.is_local_path home = true →
  Django.exceeds (redirect_max_length E) home = false →
  Django.exceeds (redirect_max_length E)
    (default (LOGIN_REDIRECT_URL (settings E)) (request_data request !! "next"))
    = false →
  ∃ location,
    fst (redirect_to_next E request w) = inr (mkResponse (Redirect location) []).
Proof.
  intros Hhome Hlocal Hlen Hcandidate.
  rewrite redirect_to_next_response, Hhome. cbv zeta.
  rewrite (HttpResponseRedirect_local_path E _ Hlocal Hlen), Hcandidate.
  destruct (truthy _ && _); by eexists.
Qed.


(** What a successful login leaves behind, whatever the mode. *)
Lemma login_post_success (request : HttpRequest) (w : World) (u : string) :
  LoginForm_get_user E (POST_data request) = Some u →
  let w' := snd (LoginView_post E request w) in
  session_user w' = Some u
  ∧ userconfigs w' =
      match userconfigs w !! u with
      | Some _ => userconfigs w
      | None => <[u := DEFAULT_USER_PREFERENCES (get_config E)]> (userconfigs w)
      end
  ∧ last_login w' =
      (if negb (MAINTENANCE_MODE (get_config E)) && update_last_login_connected w
       then <[u := now E]> (last_login w) else last_login w)
  ∧ tokens w' = tokens w
  ∧ fst (LoginView_post E request w) =
      fst (redirect_to_next E (with_user (Some u) request) w).
Proof.
  intros Hvalid. cbv zeta. unfold LoginView_post. rewrite Hvalid.
  unfold_view. simpl.
  destruct (MAINTENANCE_MODE (get_config E)); simpl;
    unfold hasattr_config, UserConfig_save, auth_login; unfold_view; simpl.
  all: destruct (update_last_login_connected w) eqn:Hconn; simpl.
  all: destruct (userconfigs w !! u) as [c|] eqn:Hcfg; simpl.
  all: rewrite ?bool_decide_eq_true_2 by eauto.
  all: rewrite ?bool_decide_eq_false_2 by (intros [? ?]; congruence).
  all: simpl.
  all: match goal with |- context [redirect_to_next E ?rq ?w1] =>
         pose proof (redirect_to_next_world rq w1) as (Hs & Hl & Hc & Ht & _);
         cbv zeta in Hs, Hl, Hc, Ht;
         rewrite Hs, Hl, Hc, Ht, (redirect_to_next_response rq w1),
           (redirect_to_next_response rq w)
       end.
  all: simpl; rewrite ?Hconn; done.
Qed.

(** The response of a successful login, written out. *)
Lemma login_post_response (request : HttpRequest) (w : World) (u : string) :
  LoginForm_get_user E (POST_data request) = Some u →
  fst (LoginView_post E request w) =
    let candidate :=
      default (LOGIN_REDIRECT_URL (settings E)) (request_data request !! "next") in
    if truthy candidate && url_has_allowed_host_and_scheme E candidate
    then
      if Django.exceeds (redirect_max_length E) candidate
      then inl DisallowedRedirect
      else inr (mkResponse (Redirect (Django.iri_to_uri candidate)) [])
    else match reverse E "home" with
         | Some home => HttpResponseRedirect E home
         | None => inl (NoReverseMatch "home")
         end.
Proof.
  intros Hvalid.
  destruct (login_post_success request w u Hvalid) as (_ & _ & _ & _ & ->).
  by rewrite redirect_to_next_response.
Qed.

(** C10.  A GET of the login page by an authenticated user is answered
    with a redirect and never with the login form.  The target is the
    submitted [next] (or, without one, [LOGIN_REDIRECT_URL]) when that is
    not empty and passes [url_has_allowed_host_and_scheme], and the home
    page otherwise; so an absolute URL in [next] sends the user to the
    home page and a path on this site is followed as it is.  This is the
    response a fresh successful login with the same [next] gets, and with
    the home page at a path on this site it is a redirect in every case
    (short of a URL over the length [HttpResponseRedirect] admits). *)
Theorem login_get_authenticated_redirects (request : HttpRequest) (w : World)
    (u : string) :
  user request = Some u →
  method request = GET →
  let next := GET_data request !! "next" in
  let candidate := default (LOGIN_REDIRECT_URL (settings E)) next in
  let response := fst (LoginView_get E request w) in
  response =
    (if truthy candidate && url_has_allowed_host_and_scheme E candidate
     then
       if Django.exceeds (redirect_max_length E) candidate
       then inl DisallowedRedirect
       else inr (mkResponse (Redirect (Django.iri_to_uri candidate)) [])
     else match reverse E "home" with
          | Some home => HttpResponseRedirect E home
          | None => inl (NoReverseMatch "home")
          end)
  ∧ (∀ n, next = Some n → Url.is_absolute_url n = true →
       response = match reverse E "home" with
                  | Some home => HttpResponseRedirect E home
                  | None => inl (NoReverseMatch "home")
                  end)
  ∧ (∀ n, next = Some n → Url.is_local_path n = true →
       within_length_limits E n = true →
       response = inr (mkResponse (Redirect n) []))
  ∧ (∀ r, response = inr r →
       ∃ target, r = mkResponse (Redirect (Django.iri_to_uri target)) []
         ∧ (reverse E "home" = Some target
            ∨ Url.names_host target = false))
  ∧ (∀ posted w0 u0,
       method posted = POST →
       LoginForm_get_user E (POST_data posted) = Some u0 →
       POST_data posted !! "next" = next →
       fst (LoginView_post E posted w0) = response)
  ∧ (∀ home, reverse E "home" = Some home → Url.is_local_path home = true →
       Django.exceeds (redirect_max_length E) home = false →
       Django.exceeds (redirect_max_length E) candidate = false →
       ∃ location, response = inr (mkResponse (Redirect location) [])).
Proof.
  intros Hu Hm. cbv zeta.
  assert (Hget : LoginView_get E request w = redirect_to_next E request w).
  { unfold LoginView_get, is_authenticated. by rewrite Hu. }
  assert (Hdata : request_data request = GET_data request).
  { unfold request_data. by rewrite Hm. }
  rewrite Hget. split; [|split; [|split; [|split; [|split]]]].
  - by rewrite redirect_to_next_response, Hdata.
  - intros n Hnext. apply redirect_to_next_absolute. by rewrite Hdata.
  - intros n Hnext. apply redirect_to_next_local. by rewrite Hdata.
  - intros r Hr.
    destruct (redirect_to_next_redirects request w r Hr) as (target & -> & Ht).
    exists target. split; [done|]. destruct Ht as [?|[_ ?]]; auto.
  - intros posted w0 u0 Hpost Hvalid Hnext.
    rewrite (login_post_response posted w0 u0 Hvalid), redirect_to_next_response.
    unfold request_data. by rewrite Hpost, Hm, Hnext.
  - intros home. rewrite <- Hdata. apply redirect_to_next_succeeds.
Qed.

(** C6.  With maintenance mode on, a successful login leaves every
    last-login timestamp as it was, while the session is authenticated, a
    [UserConfig] row exists for the user, and the response is the
    redirect of a login: to the submitted [next] (or, without one,
    [LOGIN_REDIRECT_URL]) when that is not empty and passes
    [url_has_allowed_host_and_scheme], to the home page otherwise; a
    [next] that is a path on this site is followed as it is, and with the
    home page at a path on this site the response is a redirect in every
    case (short of a URL over the length [HttpResponseRedirect]
    admits). *)
Theorem login_maintenance_keeps_last_login (request : HttpRequest) (w : World)
    (u : string) :
  MAINTENANCE_MODE (get_config E) = true →
  LoginForm_get_user E (POST_data request) = Some u →
  let w' := snd (LoginView_post E request w) in
  let response := fst (LoginView_post E request w) in
  let candidate :=
    default (LOGIN_REDIRECT_URL (settings E)) (request_data request !! "next") in
  last_login w' = last_login w
  ∧ session_user w' = Some u
  ∧ is_Some (userconfigs w' !! u)
  ∧ response =
      (if truthy candidate && url_has_allowed_host_and_scheme E candidate
       then
         if Django.exceeds (redirect_max_length E) candidate
         then inl DisallowedRedirect
         else inr (mkResponse (Redirect (Django.iri_to_uri candidate)) [])
       else match reverse E "home" with
            | Some home => HttpResponseRedirect E home
            | None => inl (NoReverseMatch "home")
            end)
  ∧ (∀ n, request_data request !! "next" = Some n →
       Url.is_local_path n = true →
       within_length_limits E n = true →
       response = inr (mkResponse (Redirect n) []))
  ∧ (∀ home, reverse E "home" = Some home → Url.is_local_path home = true →
       Django.exceeds (redirect_max_length E) home = false →
       Django.exceeds (redirect_max_length E) candidate = false →
       ∃ location, response = inr (mkResponse (Redirect location) []))
  ∧ (∀ r, response = inr r → ∃ location, r = mkResponse (Redirect location) []).
Proof.
  intros Hm Hvalid. cbv zeta.
  destruct (login_post_success request w u Hvalid) as (Hs & Hc & Hl & _ & Hr).
  rewrite Hl, Hm, Hs, Hc. simpl. repeat split; try done.
  - destruct (userconfigs w !! u) eqn:Hcfg; [by rewrite Hcfg|].
    rewrite lookup_insert_eq. eauto.
  - by apply (login_post_response request w u).
  - intros n Hnext Hn Hlen. rewrite Hr.
    by apply redirect_to_next_local.
  - intros home. rewrite Hr.
    exact (redirect_to_next_succeeds (with_user (Some u) request) w home).
  - intros r. rewrite Hr. intros Hresp.
    destruct (redirect_to_next_redirects _ _ _ Hresp) as (target & -> & _).
    by eexists.
Qed.

(** C7.  After a successful login the user has a [UserConfig] row: a row
    that was there is left as it was (and so is the whole table), and a
    missing one is created with the default preferences. *)
Theorem login_ensures_userconfig (request : HttpRequest) (w : World) (u : string) :
  LoginForm_get_user E (POST_data request) = Some u →
  let w' := snd (LoginView_post E request w) in
  (∀ c, userconfigs w !! u = Some c → userconfigs w' = userconfigs w)
  ∧ (userconfigs w !! u = None →
     userconfigs w' =
       <[u := DEFAULT_USER_PREFERENCES (get_config E)]> (userconfigs w))
  ∧ is_Some (userconfigs w' !! u).
Proof.
  intros Hvalid. cbv zeta.
  destruct (login_post_success request w u Hvalid) as (_ & Hc & _).
  rewrite Hc. repeat split.
  - by intros c ->.
  - by intros ->.
  - destruct (userconfigs w !! u) eqn:Hcfg; [by rewrite Hcfg|].
    rewrite lookup_insert_eq. eauto.
Qed.

(** The outcome of a logout, written out. *)
Lemma LogoutView_get_eq (request : HttpRequest) (w : World) :
  LogoutView_get E request w =
    (match resolve E (LOGOUT_REDIRECT_URL (settings E)) with
     | inl e => inl e
     | inr destination =>
         match HttpResponseRedirect E destination with
         | inl e => inl e
         | inr r => inr (delete_cookie "session_key" r)
         end
     end,
     with_messages (messages w ++ [MsgText INFO "You have logged out."])
       (with_log
          (log w ++
             [mkLog logout_logger INFO
                ("User " +:+ user_str (user request) +:+ " has logged out")])
          (with_session None w))).
Proof.
  unfold LogoutView_get, auth_logout, resolve_url. unfold_view. simpl.
  destruct (resolve E _); [done|]. by destruct (HttpResponseRedirect E _).
Qed.

(** C8, as the code has it.  On every request and in every world, with or
    without a session, logout flushes the session and leaves the stored
    data alone.  What it answers depends on the configured
    [LOGOUT_REDIRECT_URL]: when that resolves and [HttpResponseRedirect]
    accepts the destination, a redirect there with the [session_key]
    cookie deleted (for a path on this site, to that very path);
    otherwise the request fails, with [NoReverseMatch] for a name that is
    no route, or with [ValueError] (a malformed network location) or
    [DisallowedRedirect] (a scheme other than [http], [https] and [ftp],
    or a URL over the length limit) from [HttpResponseRedirect]. *)
Theorem logout_outcome (request : HttpRequest) (w : World) :
  let w' := snd (LogoutView_get E request w) in
  let response := fst (LogoutView_get E request w) in
  let to := LOGOUT_REDIRECT_URL (settings E) in
  session_user w' = None
  ∧ last_login w' = last_login w ∧ userconfigs w' = userconfigs w
  ∧ tokens w' = tokens w
  ∧ response =
      match resolve E to with
      | inl e => inl e
      | inr destination =>
          match HttpResponseRedirect E destination with
          | inl e => inl e
          | inr r => inr (delete_cookie "session_key" r)
          end
      end
  ∧ (∀ destination, resolve E to = inr destination →
       Url.is_local_path destination = true →
       Django.exceeds (redirect_max_length E) destination = false →
       response = inr (mkResponse (Redirect destination) ["session_key"]))
  ∧ (∀ r, response = inr r →
       ∃ destination, resolve E to = inr destination
         ∧ r = mkResponse (Redirect (Django.iri_to_uri destination)) ["session_key"])
  ∧ (∀ e, response = inl e →
       e = NoReverseMatch to ∨ e = ValueError ∨ e = DisallowedRedirect).
Proof.
  cbv zeta. rewrite LogoutView_get_eq. simpl. repeat split.
  - intros destination -> Hl Hlen.
    by rewrite (HttpResponseRedirect_local_path E _ Hl Hlen).
  - intros r. destruct (resolve E _) as [|destination]; [done|].
    destruct (HttpResponseRedirect E destination) as [|r0] eqn:Hr; [done|].
    intros [= <-]. exists destination. split; [done|].
    by rewrite (HttpResponseRedirect_inr E _ _ Hr).
  - intros e. unfold resolve.
    destruct (startswith "./" _ || startswith "../" _).
    { intros He. right.
      destruct (HttpResponseRedirect E _) eqn:Hr; [|done].
      injection He as <-. by apply HttpResponseRedirect_inl in Hr. }
    destruct (reverse E _).
    { intros He. right.
      destruct (HttpResponseRedirect E _) eqn:Hr; [|done].
      injection He as <-. by apply HttpResponseRedirect_inl in Hr. }
    destruct (negb _ && negb _).
    { intros [= <-]. by left. }
    intros He. right.
    destruct (HttpResponseRedirect E _) eqn:Hr; [|done].
    injection He as <-. by apply HttpResponseRedirect_inl in Hr.
Qed.

(** Building the list of login links does not change the world. *)
Lemma auth_backends_loop_world (request : HttpRequest) (names : list string)
    (w : World) :
  snd (auth_backends_loop E request names w) = w.
Proof.
  induction names as [|name names IH]; [done|]. simpl.
  destruct (reverse_social_begin E name); unfold_view; simpl; [|done].
  destruct (auth_backends_loop E request names w) as [[e|l] w2]; simpl in *;
    by subst.
Qed.

(** X1.  A rejected login leaves the session, the last-login times, the
    [UserConfig] rows and the tokens as they were, and what it answers
    with is the login page. *)
Lemma login_post_rejected (request : HttpRequest) (w : World) :
  LoginForm_get_user E (POST_data request) = None →
  let w' := snd (LoginView_post E request w) in
  session_user w' = session_user w ∧ last_login w' = last_login w
  ∧ userconfigs w' = userconfigs w ∧ tokens w' = tokens w
  ∧ (∀ r, fst (LoginView_post E request w) = inr r →
       ∃ context, body r = Render "login.html" context).
Proof.
  intros Hinvalid. cbv zeta. unfold LoginView_post. rewrite Hinvalid.
  unfold login_page, get_auth_backends.
  unfold mbind at 1. unfold View_bind at 1. unfold logger, modify.
  unfold mbind, View_bind.
  match goal with |- context [auth_backends_loop E request ?names ?w1] =>
    pose proof (auth_backends_loop_world request names w1) as Hloop;
    destruct (auth_backends_loop E request names w1) as [[e|l] w2]
  end; simpl in *; subst w2; repeat split; try done.
  intros r [= <-]. by eexists.
Qed.

(** Under maintenance mode the view disconnects [update_last_login] from
    the signal, and the receiver stays disconnected afterwards. *)
Lemma login_maintenance_disconnects (request : HttpRequest) (w : World)
    (u : string) :
  MAINTENANCE_MODE (get_config E) = true →
  LoginForm_get_user E (POST_data request) = Some u →
  update_last_login_connected (snd (LoginView_post E request w)) = false.
Proof.
  intros Hm Hvalid. unfold LoginView_post. rewrite Hvalid, Hm.
  unfold_view. simpl.
  unfold hasattr_config, UserConfig_save, auth_login; unfold_view; simpl.
  destruct (bool_decide _); simpl;
    match goal with |- context [redirect_to_next E ?rq ?w1] =>
      pose proof (redirect_to_next_world rq w1) as (_ & _ & _ & _ & Hc & _);
      cbv zeta in Hc; by rewrite Hc
    end.
Qed.

End LoginProperties.

(** ** API tokens *)

Section TokenProperties.
Context (E : Env).

Lemma Token_objects_filter_lookup (u : string) (table : gmap positive Token)
    (p : positive) :
  Token_objects_filter u table !! p =
    match table !! p with
    | Some t => if decide (tk_user t = u) then Some t else None
    | None => None
    end.
Proof.
  unfold Token_objects_filter.
  destruct (table !! p) as [t|] eqn:Hp.
  - destruct (decide (tk_user t = u)) as [Hu|Hu].
    + by apply map_lookup_filter_Some.
    + apply map_lookup_filter_None. right. intros t' Ht'. simpl. congruence.
  - apply map_lookup_filter_None. by left.
Qed.

Lemma get_object_or_404_found (u : string) (p : positive) (t : Token) (w : World) :
  tokens w !! p = Some t → tk_user t = u →
  get_object_or_404 u (Some (Npos p)) w = (inr (mkInstance (Some p) t), w).
Proof.
  intros Hp Hu. unfold get_object_or_404.
  rewrite Token_objects_filter_lookup, Hp. by rewrite decide_True.
Qed.

Lemma get_object_or_404_foreign (u : string) (p : positive) (t : Token)
    (w : World) :
  tokens w !! p = Some t → tk_user t ≠ u →
  get_object_or_404 u (Some (Npos p)) w = (inl Http404, w).
Proof.
  intros Hp Hu. unfold get_object_or_404.
  rewrite Token_objects_filter_lookup, Hp. by rewrite decide_False.
Qed.

Lemma get_object_or_404_cases (u : string) (pk : option N) (w : World) :
  get_object_or_404 u pk w = (inl Http404, w)
  ∨ ∃ p t, pk = Some (Npos p) ∧ tokens w !! p = Some t ∧ tk_user t = u
      ∧ get_object_or_404 u pk w = (inr (mkInstance (Some p) t), w).
Proof.
  destruct pk as [[|p]|]; [by left| |by left].
  destruct (tokens w !! p) as [t|] eqn:Hp.
  - destruct (decide (tk_user t = u)) as [Hu|Hu].
    + right. exists p, t. by rewrite (get_object_or_404_found u p t w).
    + left. by apply (get_object_or_404_foreign u p t).
  - left. unfold get_object_or_404.
    by rewrite Token_objects_filter_lookup, Hp.
Qed.

(** C3.  A token of user [A] is out of reach of another user [B]: [B]'s
    edit (GET and POST) and delete (GET and POST) on its primary key
    raise [Http404] and leave the world as it was, and the list [B] is
    shown (once its table is configured) holds only [B]'s tokens, so not
    this one. *)
Theorem token_views_owner_only (request : HttpRequest) (w : World)
    (A B : string) (p : positive) (t : Token) :
  A ≠ B → tokens w !! p = Some t → tk_user t = A → user request = Some B →
  TokenEditView_get E request (Some (Npos p)) w = (inl Http404, w)
  ∧ TokenEditView_post E request (Some (Npos p)) w = (inl Http404, w)
  ∧ TokenDeleteView_get E request (Npos p) w = (inl Http404, w)
  ∧ TokenDeleteView_post E request (Npos p) w = (inl Http404, w)
  ∧ ∃ listed,
      TokenListView_get E request w =
        (match fst (TokenTable_configure E request w) with
         | inr _ =>
             inr (render "users/api_tokens.html"
                    [("tokens", VTokens listed);
                     ("active_tab", VStr "api-tokens");
                     ("table", VTable listed)])
         | inl e => inl e
         end, snd (TokenTable_configure E request w))
      ∧ ¬ ((p, t) ∈ listed)
      ∧ ∀ p' t', (p', t') ∈ listed → tk_user t' = B.
Proof.
  intros Hne Hp Hu HB.
  assert (H404 : get_object_or_404 B (Some (Npos p)) w = (inl Http404, w)).
  { apply (get_object_or_404_foreign B p t); congruence. }
  unfold TokenEditView_get, TokenEditView_post, TokenDeleteView_get,
    TokenDeleteView_post, TokenListView_get, LoginRequiredMixin.
  rewrite HB. simpl pk_truthy. cbv iota.
  repeat split.
  - by rewrite (bind_inl _ _ _ _ _ H404).
  - cbv zeta. erewrite bind_inl; [done|]. by rewrite (bind_inl _ _ _ _ _ H404).
  - by rewrite (bind_inl _ _ _ _ _ H404).
  - cbv zeta. by rewrite (bind_inl _ _ _ _ _ H404).
  - unfold_view.
    destruct (TokenTable_configure E request w) as [[e|[]] w'] eqn:Hc; simpl.
    { exists []. split; [done|]. split; [by intros ?%elem_of_nil|].
      by intros p' t' ?%elem_of_nil. }
    eexists. split; [reflexivity|]. split.
    + rewrite elem_of_map_to_list, Token_objects_filter_lookup.
      destruct (tokens w' !! p) as [t''|]; [|done].
      destruct (decide _); [|done]. intros [= ->]. congruence.
    + intros p' t'. rewrite elem_of_map_to_list, Token_objects_filter_lookup.
      destruct (tokens w' !! p') as [t''|]; [|done].
      destruct (decide _); [|done]. by intros [= <-].
Qed.

Lemma Token_save_spec (t : TokenInstance) (w : World) :
  ∃ p r w',
    Token_save E t w = (inr (mkInstance (Some p) r), w')
    ∧ tokens w' = <[p := r]> (tokens w)
    ∧ tk_user r = tk_user (row t)
    ∧ (instance_pk t = Some p ∧ r = row t
       ∨ instance_pk t = None ∧ tokens w !! p = None)
    ∧ session_user w' = session_user w ∧ last_login w' = last_login w
    ∧ userconfigs w' = userconfigs w ∧ messages w' = messages w.
Proof.
  unfold Token_save. destruct t as [[p|] r]; simpl.
  - exists p, r. eexists. split; [reflexivity|]. simpl. eauto 10.
  - destruct (truthy (key r)); simpl.
    + eexists _, _, _. split; [reflexivity|]. simpl. repeat split; try done.
      right. split; [done|]. apply not_elem_of_dom, is_fresh.
    + eexists _, _, _. split; [reflexivity|]. simpl. repeat split; try done.
      right. split; [done|]. apply not_elem_of_dom, is_fresh.
Qed.

Lemma after_save_tokens (request : HttpRequest) (pk : option N)
    (token : TokenInstance) (w : World) :
  tokens (snd (after_save E request pk token w)) = tokens w.
Proof.
  unfold after_save, reverse_url, redirect, resolve_url. unfold_view. simpl.
  repeat (match goal with
          | |- context [if ?b then _ else _] => destruct b
          | |- context [match ?x with inl _ => _ | inr _ => _ end] => destruct x
          end; simpl); done.
Qed.

Lemma TokenEditView_post_create (request : HttpRequest) (pk : option N)
    (u : string) (w : World) :
  user request = Some u → pk_truthy pk = false →
  TokenForm_is_valid E (tokens w) (POST_data request) Token_blank = true →
  TokenEditView_post E request pk w =
    (Token_save E (submitted E u (POST_data request) Token_blank)
       ≫= after_save E request pk) w.
Proof.
  intros Hu Hpk Hvalid. unfold TokenEditView_post, LoginRequiredMixin.
  rewrite Hu, Hpk. cbv zeta. unfold_view. simpl. rewrite Hvalid.
  reflexivity.
Qed.

Lemma TokenEditView_post_edit (request : HttpRequest) (p : positive) (t : Token)
    (u : string) (w : World) :
  user request = Some u → tokens w !! p = Some t → tk_user t = u →
  TokenForm_is_valid E (tokens w) (POST_data request) (mkInstance (Some p) t)
    = true →
  TokenEditView_post E request (Some (Npos p)) w =
    (Token_save E (submitted E u (POST_data request) (mkInstance (Some p) t))
       ≫= after_save E request (Some (Npos p))) w.
Proof.
  intros Hu Hp Ht Hvalid. unfold TokenEditView_post, LoginRequiredMixin.
  rewrite Hu. simpl pk_truthy. cbv zeta iota.
  unfold mbind at 1. unfold View_bind at 1.
  unfold mbind at 1. unfold View_bind at 1.
  rewrite (get_object_or_404_found u p t w Hp Ht).
  unfold_view. simpl. rewrite Hvalid. reflexivity.
Qed.

(** Every path through [TokenEditView.post] that does not reach [save()]
    leaves the table alone. *)
Lemma TokenEditView_post_cases (request : HttpRequest) (pk : option N)
    (u : string) (w : World) :
  user request = Some u →
  tokens (snd (TokenEditView_post E request pk w)) = tokens w
  ∨ ∃ instance,
      (pk_truthy pk = false ∧ instance = Token_blank
       ∨ ∃ p t, pk = Some (Npos p) ∧ tokens w !! p = Some t ∧ tk_user t = u
           ∧ instance = mkInstance (Some p) t)
      ∧ TokenForm_is_valid E (tokens w) (POST_data request) instance = true
      ∧ TokenEditView_post E request pk w =
          (Token_save E (submitted E u (POST_data request) instance)
             ≫= after_save E request pk) w.
Proof.
  intros Hu.
  destruct (pk_truthy pk) eqn:Hpk.
  - destruct (get_object_or_404_cases u pk w)
      as [H404|(p & t & -> & Hp & Ht & Hget)].
    + left. unfold TokenEditView_post, LoginRequiredMixin. rewrite Hu, Hpk.
      cbv zeta. erewrite bind_inl; [done|]. by rewrite (bind_inl _ _ _ _ _ H404).
    + destruct (TokenForm_is_valid E (tokens w) (POST_data request)
                  (mkInstance (Some p) t)) eqn:Hvalid.
      * right. exists (mkInstance (Some p) t).
        split; [right; by exists p, t|]. split; [done|].
        by apply TokenEditView_post_edit.
      * left. unfold TokenEditView_post, LoginRequiredMixin. rewrite Hu, Hpk.
        cbv zeta.
        unfold mbind at 1. unfold View_bind at 1.
        unfold mbind at 1. unfold View_bind at 1.
        rewrite Hget. unfold reverse_url. unfold_view. simpl. rewrite Hvalid.
        by destruct (reverse_or_raise E "users:token_list").
  - destruct (TokenForm_is_valid E (tokens w) (POST_data request) Token_blank)
      eqn:Hvalid.
    + right. exists Token_blank. split; [by left|]. split; [done|].
      by apply TokenEditView_post_create.
    + left. unfold TokenEditView_post, LoginRequiredMixin. rewrite Hu, Hpk.
      cbv zeta. unfold reverse_url. unfold_view. simpl. rewrite Hvalid.
      by destruct (reverse_or_raise E "users:token_list").
Qed.

(** C9.  Whatever the form data, every row the token edit view writes is
    owned by the requester: a row of the table after the request is
    either a row that was there before or belongs to the requesting user;
    and when the form validates, on create and on edit of an own token,
    exactly one row is written and its user is the requester. *)
Theorem token_edit_forces_owner (request : HttpRequest) (pk : option N)
    (u : string) (w : World) :
  user request = Some u →
  let w' := snd (TokenEditView_post E request pk w) in
  (∀ p t, tokens w' !! p = Some t → tokens w !! p = Some t ∨ tk_user t = u)
  ∧ (∀ instance,
       (pk_truthy pk = false ∧ instance = Token_blank
        ∨ ∃ p t, pk = Some (Npos p) ∧ tokens w !! p = Some t ∧ tk_user t = u
            ∧ instance = mkInstance (Some p) t) →
       TokenForm_is_valid E (tokens w) (POST_data request) instance = true →
       ∃ p t, tokens w' = <[p := t]> (tokens w) ∧ tk_user t = u).
Proof.
  intros Hu. cbv zeta.
  assert (Hsaved : ∀ instance,
    TokenEditView_post E request pk w =
      (Token_save E (submitted E u (POST_data request) instance)
         ≫= after_save E request pk) w →
    ∃ p t, tokens (snd (TokenEditView_post E request pk w)) = <[p := t]> (tokens w)
           ∧ tk_user t = u).
  { intros instance ->.
    destruct (Token_save_spec (submitted E u (POST_data request) instance) w)
      as (p & r & w1 & Hsave & Htok & Huser & _).
    rewrite (bind_inr _ _ _ _ _ Hsave), after_save_tokens, Htok.
    exists p, r. split; [done|]. by rewrite Huser. }
  split.
  - intros p t Hp.
    destruct (TokenEditView_post_cases request pk u w Hu)
      as [Hsame|(instance & _ & _ & Hpost)].
    + left. by rewrite <- Hsame.
    + destruct (Hsaved instance Hpost) as (p' & t' & Htok & Ht').
      rewrite Htok in Hp. destruct (decide (p' = p)) as [->|Hne].
      * rewrite lookup_insert_eq in Hp. right. congruence.
      * rewrite lookup_insert_ne in Hp by done. by left.
  - intros instance [[Hpk ->]|(p & t & -> & Hp & Ht & ->)] Hvalid.
    + apply (Hsaved Token_blank). by apply TokenEditView_post_create.
    + apply (Hsaved (mkInstance (Some p) t)). by apply TokenEditView_post_edit.
Qed.

Lemma flat_map_token_plaintext_false (ts : list (positive * Token)) :
  flat_map (λ kv, token_plaintext false kv.2) ts = [].
Proof. induction ts as [|kv ts IH]; [done|]. simpl. exact IH. Qed.

Lemma redirect_plaintext (allow : bool) (to : string) (w : World)
    (r : HttpResponse) :
  fst (redirect E to w) = inr r → plaintext_secrets allow r = [].
Proof.
  unfold redirect, resolve_url. unfold_view. simpl.
  destruct (resolve E to); simpl; [done|]. by intros ->%HttpResponseRedirect_inr.
Qed.

Lemma redirect_to_login_plaintext (allow : bool) (request : HttpRequest)
    (w : World) (r : HttpResponse) :
  fst (lift (redirect_to_login E request) w) = inr r →
  plaintext_secrets allow r = [].
Proof.
  unfold lift, redirect_to_login. simpl. by intros ->%HttpResponseRedirect_inr.
Qed.

Lemma after_save_edit_plaintext (allow : bool) (request : HttpRequest)
    (pk : option N) (token : TokenInstance) (w : World) (r : HttpResponse) :
  pk_truthy pk = true →
  fst (after_save E request pk token w) = inr r → plaintext_secrets allow r = [].
Proof.
  intros Hpk. unfold after_save. rewrite Hpk. simpl negb. cbv iota.
  unfold mbind at 1. unfold View_bind at 1. unfold add_message, modify.
  simpl andb. cbv iota.
  destruct (bool_decide _); apply redirect_plaintext.
Qed.

(** C2.  With token retrieval disabled, creating a token (no [pk], valid
    form) answers with a page that shows the new token's plaintext secret
    exactly once, the token being a new row of the requester; and no
    response of the edit view with a [pk], of the edit form, of the list
    view or of the delete view shows any plaintext secret. *)
Theorem token_secret_shown_once :
  ALLOW_TOKEN_RETRIEVAL (settings E) = false →
  let shown := plaintext_secrets (ALLOW_TOKEN_RETRIEVAL (settings E)) in
  (∀ request pk u w return_url,
     user request = Some u → pk_truthy pk = false →
     TokenForm_is_valid E (tokens w) (POST_data request) Token_blank = true →
     reverse E "users:token_list" = Some return_url →
     ∃ p t r w',
       TokenEditView_post E request pk w = (inr r, w')
       ∧ tokens w !! p = None ∧ tokens w' !! p = Some t ∧ tk_user t = u
       ∧ shown r = [key t])
  ∧ (∀ request w r,
       (∀ pk, fst (TokenEditView_get E request pk w) = inr r → shown r = [])
       ∧ (∀ pk, pk_truthy pk = true →
            fst (TokenEditView_post E request pk w) = inr r → shown r = [])
       ∧ (fst (TokenListView_get E request w) = inr r → shown r = [])
       ∧ (∀ pk, fst (TokenDeleteView_get E request pk w) = inr r → shown r = [])
       ∧ (∀ pk, fst (TokenDeleteView_post E request pk w) = inr r → shown r = [])).
Proof.
  intros Hallow. cbv zeta. rewrite Hallow. split.
  - intros request pk u w return_url Hu Hpk Hvalid Hrev.
    rewrite (TokenEditView_post_create request pk u w Hu Hpk Hvalid).
    destruct (Token_save_spec (submitted E u (POST_data request) Token_blank) w)
      as (p & t & w1 & Hsave & Htok & Huser & [[Hcontra _]|[_ Hfresh]] & _);
      [done|].
    rewrite (bind_inr _ _ _ _ _ Hsave).
    exists p, t.
    unfold after_save, reverse_url, reverse_or_raise.
    rewrite Hpk, Hallow, Hrev. unfold_view. simpl.
    eexists _, _. split; [reflexivity|]. simpl. rewrite Htok, lookup_insert_eq.
    done.
  - intros request w r.
    repeat split.
    + intros pk. unfold TokenEditView_get, LoginRequiredMixin.
      destruct (user request) as [u|]; [|by apply redirect_to_login_plaintext].
      unfold reverse_url.
      destruct (pk_truthy pk).
      * destruct (get_object_or_404_cases u pk w)
          as [H404|(p & t & -> & Hp & Ht & Hget)].
        { by rewrite (bind_inl _ _ _ _ _ H404). }
        rewrite (bind_inr _ _ _ _ _ Hget). unfold_view. simpl.
        destruct (reverse_or_raise E "users:token_list"); simpl; [done|].
        by intros [= <-].
      * unfold_view. simpl.
        destruct (reverse_or_raise E "users:token_list"); simpl; [done|].
        by intros [= <-].
    + intros pk Hpk. unfold TokenEditView_post, LoginRequiredMixin.
      destruct (user request) as [u|]; [|by apply redirect_to_login_plaintext].
      rewrite Hpk. cbv zeta.
      unfold mbind at 1. unfold View_bind at 1.
      unfold mbind at 1. unfold View_bind at 1.
      destruct (get_object_or_404_cases u pk w)
        as [H404|(p & t & -> & Hp & Ht & Hget)].
      { by rewrite H404. }
      rewrite Hget. unfold mret at 1. unfold View_ret at 1.
      unfold mbind at 1. unfold View_bind at 1. unfold gets at 1.
      destruct (TokenForm_is_valid _ _ _ _).
      * destruct (Token_save_spec
                    (submitted E u (POST_data request) (mkInstance (Some p) t)) w)
          as (p' & t' & w1 & Hsave & _).
        rewrite (bind_inr _ _ _ _ _ Hsave).
        by apply after_save_edit_plaintext.
      * unfold reverse_url. unfold_view. simpl.
        destruct (reverse_or_raise E "users:token_list"); simpl; [done|].
        by intros [= <-].
    + unfold TokenListView_get, LoginRequiredMixin.
      destruct (user request) as [u|]; [|by apply redirect_to_login_plaintext].
      unfold_view. destruct (TokenTable_configure E request w) as [[e|[]] w'];
        simpl; [done|].
      intros [= <-]. unfold plaintext_secrets. simpl.
      by rewrite !flat_map_token_plaintext_false.
    + intros pk. unfold TokenDeleteView_get, LoginRequiredMixin.
      destruct (user request) as [u|]; [|by apply redirect_to_login_plaintext].
      destruct (get_object_or_404_cases u (Some pk) w)
        as [H404|(p & t & Hpk & Hp & Ht & Hget)].
      { by rewrite (bind_inl _ _ _ _ _ H404). }
      rewrite (bind_inr _ _ _ _ _ Hget).
      unfold delete_page, reverse_url. unfold_view. simpl.
      destruct (reverse_or_raise E "users:token_list"); simpl; [done|].
      by intros [= <-].
    + intros pk. unfold TokenDeleteView_post, LoginRequiredMixin.
      destruct (user request) as [u|]; [|by apply redirect_to_login_plaintext].
      cbv zeta.
      destruct (get_object_or_404_cases u (Some pk) w)
        as [H404|(p & t & Hpk & Hp & Ht & Hget)].
      { by rewrite (bind_inl _ _ _ _ _ H404). }
      rewrite (bind_inr _ _ _ _ _ Hget).
      destruct (ConfirmationForm_is_valid E (POST_data request)).
      * unfold Token_delete.
        unfold mbind at 1. unfold View_bind at 1. unfold modify at 1.
        unfold mbind at 1. unfold View_bind at 1. unfold add_message, modify.
        apply redirect_plaintext.
      * unfold delete_page, reverse_url. unfold_view. simpl.
        destruct (reverse_or_raise E "users:token_list"); simpl; [done|].
        by intros [= <-].
Qed.

End TokenProperties.

(** ** Permission resolver *)

Section ResolverProperties.
Import Resolver.
Context {Instance : Type}.

Lemma matches_true (P : Principal) (action object_type : string)
    (perm : ObjectPermission Instance) :
  matches P action object_type perm = true ↔
    enabled perm = true
    ∧ (username P ∈ perm_users perm ∨ perm_groups perm ∩ groups P ≠ ∅)
    ∧ action ∈ actions perm
    ∧ object_type ∈ object_types perm.
Proof.
  unfold matches. rewrite !andb_true_iff, !bool_decide_eq_true. tauto.
Qed.

Lemma collect_nil (perms : list (ObjectPermission Instance)) (P : Principal)
    (action object_type : string) :
  (∀ perm, perm ∈ perms → matches P action object_type perm = false) →
  collect perms P action object_type = [].
Proof.
  unfold collect. induction perms as [|perm perms IH]; intros Hnone; [done|].
  simpl. rewrite (Hnone perm) by apply list_elem_of_here.
  apply IH. intros perm' Hin. apply Hnone. by apply list_elem_of_further.
Qed.

(** C4.  The resolver fails closed: for a principal that is not a
    superuser, when no enabled permission row names the principal or one
    of its groups together with the action and the object type,
    [is_allowed] is false, with or without a concrete instance. *)
Theorem is_allowed_fails_closed (perms : list (ObjectPermission Instance))
    (P : Principal) (action object_type : string) (instance : option Instance) :
  is_superuser P = false →
  (∀ perm, perm ∈ perms → enabled perm = true →
     username P ∈ perm_users perm ∨ perm_groups perm ∩ groups P ≠ ∅ →
     action ∈ actions perm → object_type ∈ object_types perm → False) →
  is_allowed perms P action object_type instance = false.
Proof.
  intros Hsuper Hnone. unfold is_allowed. rewrite Hsuper.
  rewrite collect_nil; [done|].
  intros perm Hin. apply not_true_is_false. rewrite matches_true.
  intros (Hen & Hprin & Hact & Hty). by apply (Hnone perm).
Qed.

(** A superuser is allowed whatever the permission rows. *)
Lemma is_allowed_superuser (perms : list (ObjectPermission Instance))
    (P : Principal) (action object_type : string) (instance : option Instance) :
  is_superuser P = true → is_allowed perms P action object_type instance = true.
Proof. intros Hsuper. unfold is_allowed. by rewrite Hsuper. Qed.

(** A disabled permission contributes to no grant. *)
Lemma collect_disabled (perms : list (ObjectPermission Instance)) (P : Principal)
    (action object_type : string) (perm : ObjectPermission Instance) :
  enabled perm = false →
  collect (perm :: perms) P action object_type = collect perms P action object_type.
Proof. intros Hoff. unfold collect, matches. simpl. by rewrite Hoff. Qed.

(** Two matching permissions combine by union. *)
Lemma restrict_union (P : Principal) (action object_type : string)
    (perm1 perm2 : ObjectPermission Instance) (i : Instance) :
  is_superuser P = false →
  matches P action object_type perm1 = true →
  matches P action object_type perm2 = true →
  restrict [perm1; perm2] P action object_type i = satisfies i perm1 || satisfies i perm2.
Proof.
  intros Hsuper H1 H2. unfold restrict, collect. rewrite Hsuper. simpl.
  rewrite H1, H2. simpl. by rewrite orb_false_r.
Qed.

End ResolverProperties.

(** ** Bulk edit *)

Section BulkEditProperties.
Import BulkEdit.

Lemma bulk_apply_lookup (admits : Row → bool) (ids : gset positive)
    (changes : gmap string FieldValue) (nulls : gset string)
    (table : gmap positive Row) (p : positive) :
  (bulk_apply admits ids changes nulls table).1 !! p =
    match table !! p with
    | Some r =>
        if decide (p ∈ ids ∧ admits r = true)
        then Some (apply_changes changes nulls r) else Some r
    | None => None
    end.
Proof.
  unfold bulk_apply. simpl. rewrite lookup_union, lookup_fmap.
  destruct (table !! p) as [r|] eqn:Hp.
  - destruct (decide (p ∈ ids ∧ admits r = true)) as [Hin|Hout].
    + rewrite (proj2 (map_lookup_filter_Some _ table p r)) by done. done.
    + rewrite (proj2 (map_lookup_filter_None _ table p)).
      * done.
      * right. intros r' Hr'. simpl. congruence.
  - rewrite (proj2 (map_lookup_filter_None _ table p)) by (by left). done.
Qed.

Lemma bulk_apply_none (admits : Row → bool) (ids : gset positive)
    (changes : gmap string FieldValue) (nulls : gset string)
    (table : gmap positive Row) :
  (∀ p r, p ∈ ids → table !! p = Some r → admits r = false) →
  bulk_apply admits ids changes nulls table = (table, mkOutcome 0 (size ids)).
Proof.
  intros Hnone. unfold bulk_apply.
  assert (Hempty : filter (λ kv : positive * Row, kv.1 ∈ ids ∧ admits kv.2 = true)
                     table = ∅).
  { apply map_empty. intros p. apply map_lookup_filter_None.
    destruct (table !! p) as [r|] eqn:Hp; [right|by left].
    intros r' [= <-] [Hin Hadm]. simpl in *.
    rewrite (Hnone p r Hin Hp) in Hadm. done. }
  rewrite Hempty, fmap_empty, (left_id_L ∅ (∪)), map_size_empty.
  by rewrite Nat.sub_0_r.
Qed.

(** C5.  A bulk edit touches only rows the acting principal's [restrict]
    predicate for the modify action admits: a row outside the predicate
    is the same after the request, every row that changed was a requested
    row inside the predicate, and when none of the requested rows is
    admitted the table is unchanged and the outcome, if the form
    validates, is zero rows affected with every requested identifier
    counted as unauthorized. *)
Theorem bulk_edit_respects_restrict (form : Form) (modify : string)
    (perms : list (Resolver.ObjectPermission Row)) (P : Resolver.Principal)
    (pks : list positive) (changes : gmap string FieldValue)
    (nullify : list string) (table : gmap positive Row) :
  let admits := Resolver.restrict perms P modify (model form) in
  let table' := (bulk_edit form modify perms P pks changes nullify table).1 in
  let result := (bulk_edit form modify perms P pks changes nullify table).2 in
  (∀ p r, table !! p = Some r → admits r = false → table' !! p = Some r)
  ∧ (∀ p, table' !! p ≠ table !! p →
       p ∈ pks ∧ ∃ r, table !! p = Some r ∧ admits r = true)
  ∧ ((∀ p r, p ∈ pks → table !! p = Some r → admits r = false) →
     table' = table
     ∧ (result = ValidationError
        ∨ result = Applied (mkOutcome 0 (size (list_to_set pks : gset positive))))).
Proof.
  cbv zeta. unfold bulk_edit.
  destruct (is_valid form table pks changes); [|simpl].
  - set (admits := Resolver.restrict perms P modify (model form)).
    set (nulls := list_to_set _ : gset string).
    set (cleaned := cleaned_data form changes).
    destruct (bulk_apply admits (list_to_set pks) cleaned nulls table)
      as [table' o] eqn:Happ.
    simpl.
    assert (Hlookup := bulk_apply_lookup admits (list_to_set pks) cleaned nulls table).
    rewrite Happ in Hlookup. simpl in Hlookup.
    split; [|split].
    + intros p r Hp Hadm. rewrite Hlookup, Hp.
      rewrite decide_False; [done|]. intros [_ ?]. congruence.
    + intros p Hchanged. rewrite Hlookup in Hchanged.
      destruct (table !! p) as [r|]; [|done].
      destruct (decide _) as [[Hin Hadm]|]; [|done].
      split; [by apply elem_of_list_to_set in Hin|by exists r].
    + intros Hnone.
      rewrite (bulk_apply_none admits _ cleaned nulls table) in Happ.
      * split; [congruence|right; congruence].
      * intros p r Hin. apply Hnone. by apply elem_of_list_to_set in Hin.
  - split; [done|]. split; [done|]. intros _. split; [done|by left].
Qed.

End BulkEditProperties.

(** ** The properties at work on the reference environment *)

Section Witnesses.
Import Reference.

(** The redirect-target check on the specification's examples and on the
    usual open-redirect spellings: backslashes, a tab between the slashes,
    a scheme without a host. *)
Example url_has_allowed_host_and_scheme_examples :
  let check := url_has_allowed_host_and_scheme (env false false) in
  check "https://evil.example/x" = false
  ∧ check "/dashboard" = true
  ∧ check "//evil.example/x" = false
  ∧ check "/\evil.example" = false
  ∧ check ("/" +:+ String "009" "/evil.example") = false
  ∧ check (String "031" "/dashboard") = true
  ∧ check "http:///evil.example" = false
  ∧ check "javascript:alert(1)" = false
  ∧ check "" = false.
Proof. vm_compute. repeat split. Qed.



Lemma login_get_authenticated_redirects_witness :
  fst (LoginView_get (env false false)
         (make_request GET {["next" := "https://evil.example/x"]} ∅ (Some "alice"))
         world1)
    = inr (mkResponse (Redirect "/") [])
  ∧ fst (LoginView_post (env false false)
           (make_request POST ∅
              (<["next" := "https://evil.example/x"]> credentials) None)
           world1)
    = fst (LoginView_get (env false false)
             (make_request GET {["next" := "https://evil.example/x"]} ∅
                (Some "alice"))
             world1)
  ∧ fst (LoginView_get (env false false)
           (make_request GET {["next" := "/dashboard"]} ∅ (Some "alice")) world1)
    = inr (mkResponse (Redirect "/dashboard") []).
Proof.
  pose proof (login_get_authenticated_redirects (env false false)
                (make_request GET {["next" := "https://evil.example/x"]} ∅
                   (Some "alice"))
                world1 "alice" eq_refl eq_refl)
    as (_ & Habsolute & _ & _ & Hpost & _).
  pose proof (login_get_authenticated_redirects (env false false)
                (make_request GET {["next" := "/dashboard"]} ∅ (Some "alice"))
                world1 "alice" eq_refl eq_refl) as (_ & _ & Hlocal & _).
  split; [|split].
  - exact (Habsolute "https://evil.example/x" eq_refl eq_refl).
  - exact (Hpost (make_request POST ∅
                    (<["next" := "https://evil.example/x"]> credentials) None)
             world1 "alice" eq_refl eq_refl eq_refl).
  - exact (Hlocal "/dashboard" eq_refl eq_refl eq_refl).
Defined.

Lemma login_maintenance_keeps_last_login_witness :
  let outcome :=
    LoginView_post (env true false)
      (make_request POST ∅ (<["next" := "/dashboard"]> credentials) None) world1 in
  last_login (snd outcome) = {["alice" := 7%N]}
  ∧ session_user (snd outcome) = Some "alice"
  ∧ is_Some (userconfigs (snd outcome) !! "alice")
  ∧ fst outcome = inr (mkResponse (Redirect "/dashboard") []).
Proof.
  pose proof (login_maintenance_keeps_last_login (env true false)
                (make_request POST ∅ (<["next" := "/dashboard"]> credentials) None)
                world1 "alice" eq_refl eq_refl)
    as (Hlast & Hsession & Hconfig & _ & Hlocal & _).
  split; [exact Hlast|]. split; [exact Hsession|]. split; [exact Hconfig|].
  exact (Hlocal "/dashboard" eq_refl eq_refl eq_refl).
Defined.

Lemma login_ensures_userconfig_witness :
  is_Some (userconfigs (snd (LoginView_post (env false false)
                               (make_request POST ∅ credentials None) world1))
             !! "alice").
Proof.
  apply (login_ensures_userconfig (env false false) _ world1 "alice").
  reflexivity.
Defined.

(** C8, counterexample.  The specification has no error outcome for
    logout.  With a [LOGOUT_REDIRECT_URL] that names no route the logout
    of a logged-in user ends in [NoReverseMatch], and with a [mailto:]
    URL in [DisallowedRedirect]. *)
Lemma logout_error_outcomes :
  fst (LogoutView_get Fixtures.env_bad_logout
         (make_request GET ∅ ∅ (Some "alice"))
         (with_session (Some "alice") world1))
    = inl (NoReverseMatch "nowhere")
  ∧ fst (LogoutView_get Fixtures.env_mail_logout
           (make_request GET ∅ ∅ (Some "alice"))
           (with_session (Some "alice") world1))
      = inl DisallowedRedirect.
Proof. split; reflexivity. Qed.

Lemma logout_outcome_witness :
  let outcome :=
    LogoutView_get (env false false) (make_request GET ∅ ∅ (Some "alice"))
      (with_session (Some "alice") world1) in
  session_user (snd outcome) = None
  ∧ tokens (snd outcome) = {[1%positive := alice_token]}
  ∧ fst outcome = inr (mkResponse (Redirect "/") ["session_key"]).
Proof.
  pose proof (logout_outcome (env false false)
                (make_request GET ∅ ∅ (Some "alice"))
                (with_session (Some "alice") world1))
    as (Hsession & _ & _ & Htokens & _ & Hlocal & _).
  split; [exact Hsession|]. split; [exact Htokens|].
  exact (Hlocal "/" eq_refl eq_refl eq_refl).
Defined.

Lemma token_secret_shown_once_witness :
  ∃ p t r w',
    TokenEditView_post (env false false)
      (make_request POST ∅ {["description" := "ci"]} (Some "alice")) None world1
    = (inr r, w')
    ∧ tokens world1 !! p = None ∧ tokens w' !! p = Some t ∧ tk_user t = "alice"
    ∧ plaintext_secrets false r = [key t].
Proof.
  apply (proj1 (token_secret_shown_once (env false false) eq_refl))
    with (return_url := "/user/api-tokens/"); reflexivity.
Defined.

Lemma token_views_owner_only_witness :
  TokenDeleteView_post (env false false)
    (make_request POST ∅ {["confirm" := "on"]} (Some "bob")) 1%N world1
  = (inl Http404, world1).
Proof.
  apply (token_views_owner_only (env false false) _ world1 "alice" "bob"
           1%positive alice_token); [discriminate|reflexivity..].
Defined.

Lemma token_edit_forces_owner_witness :
  ∃ p t,
    tokens (snd (TokenEditView_post (env false false)
                   (make_request POST ∅ {["description" := "ci"]} (Some "bob"))
                   None world1))
    = <[p := t]> (tokens world1)
    ∧ tk_user t = "bob".
Proof.
  apply (proj2 (token_edit_forces_owner (env false false)
                  (make_request POST ∅ {["description" := "ci"]} (Some "bob"))
                  None "bob" world1 eq_refl) Token_blank).
  - left. split; reflexivity.
  - reflexivity.
Defined.

Lemma is_allowed_fails_closed_witness :
  Resolver.is_allowed [view_users] bob "delete" "NetBoxUser" None = false.
Proof.
  apply is_allowed_fails_closed; [reflexivity|].
  intros perm ->%list_elem_of_singleton _ _ Hact _. simpl in Hact.
  by apply elem_of_singleton in Hact.
Defined.

Lemma bulk_edit_respects_restrict_witness :
  (BulkEdit.bulk_edit BulkEdit.UserBulkEditForm "change"
     [view_users; change_users] bob [1%positive; 2%positive]
     {["last_name" := BulkEdit.VText "Lee"]} [] users_table).1 !! 2%positive
  = users_table !! 2%positive.
Proof.
  apply (proj1 (bulk_edit_respects_restrict BulkEdit.UserBulkEditForm "change"
                  [view_users; change_users] bob [1%positive; 2%positive]
                  {["last_name" := BulkEdit.VText "Lee"]} [] users_table));
    reflexivity.
Defined.

End Witnesses.

(** * Further properties *)

(** ** Login and logout *)

Section MoreLoginProperties.
Context (E : Env).

(** X2.  The disconnect made under maintenance mode is lasting: after one
    successful login with maintenance mode on, the receiver is disconnected,
    and the next successful login, under any configuration, authenticates
    its session but leaves every last-login time as it was before both. *)
Theorem login_maintenance_disconnect_persists (E2 : Env)
    (first second : HttpRequest) (w : World) (u1 u2 : string) :
  MAINTENANCE_MODE (get_config E) = true →
  LoginForm_get_user E (POST_data first) = Some u1 →
  LoginForm_get_user E2 (POST_data second) = Some u2 →
  let w1 := snd (LoginView_post E first w) in
  let w2 := snd (LoginView_post E2 second w1) in
  update_last_login_connected w1 = false
  ∧ last_login w2 = last_login w
  ∧ session_user w2 = Some u2.
Proof.
  intros Hm H1 H2. cbv zeta.
  pose proof (login_maintenance_disconnects E first w u1 Hm H1) as Hoff.
  destruct (login_post_success E first w u1 H1) as (_ & _ & Hl1 & _).
  destruct (login_post_success E2 second (snd (LoginView_post E first w)) u2 H2)
    as (Hs2 & _ & Hl2 & _).
  split; [done|]. split; [|done].
  rewrite Hl2, Hoff, andb_false_r, Hl1, Hm. done.
Qed.

(** X3.  With maintenance mode off and [update_last_login] connected, a
    successful login sets the last-login time of the user who logged in to
    the current time, leaves every other user's untouched, and keeps the
    receiver connected. *)
Theorem login_stamps_last_login (request : HttpRequest) (w : World) (u : string) :
  MAINTENANCE_MODE (get_config E) = false →
  update_last_login_connected w = true →
  LoginForm_get_user E (POST_data request) = Some u →
  let w' := snd (LoginView_post E request w) in
  last_login w' !! u = Some (now E)
  ∧ (∀ other, other ≠ u → last_login w' !! other = last_login w !! other)
  ∧ update_last_login_connected w' = true.
Proof.
  intros Hm Hconn Hvalid. cbv zeta.
  destruct (login_post_success E request w u Hvalid) as (_ & _ & Hl & _).
  rewrite Hl, Hm, Hconn. simpl. split; [apply lookup_insert_eq|]. split.
  - intros other Hne. by rewrite lookup_insert_ne.
  - unfold LoginView_post. rewrite Hvalid, Hm. unfold_view. simpl.
    unfold hasattr_config, UserConfig_save, auth_login; unfold_view; simpl.
    rewrite Hconn.
    destruct (bool_decide _); simpl;
      match goal with |- context [redirect_to_next E ?rq ?w1] =>
        pose proof (redirect_to_next_world E rq w1) as (_ & _ & _ & _ & Hc & _);
        cbv zeta in Hc; by rewrite Hc
      end.
Qed.

(** X4.  All [redirect_to_next] changes is the log.  The candidate URL is
    the submitted [next], or [LOGIN_REDIRECT_URL] without one: an empty
    candidate leaves the world as it was, a non-empty rejected one appends
    one WARNING record naming it, a non-empty accepted one appends one
    DEBUG record naming it. *)
Theorem redirect_to_next_log (request : HttpRequest) (w : World) :
  let candidate :=
    default (LOGIN_REDIRECT_URL (settings E)) (request_data request !! "next") in
  let w' := snd (redirect_to_next E request w) in
  (candidate = "" → w' = w)
  ∧ (candidate ≠ "" → url_has_allowed_host_and_scheme E candidate = false →
       w' = with_log
              (log w ++
                 [mkLog login_logger WARNING
                    ("Ignoring unsafe 'next' URL passed to login form: "
                       +:+ candidate)]) w)
  ∧ (candidate ≠ "" → url_has_allowed_host_and_scheme E candidate = true →
       w' = with_log
              (log w ++
                 [mkLog login_logger DEBUG ("Redirecting user to " +:+ candidate)])
              w).
Proof.
  cbv zeta. unfold redirect_to_next, reverse_url, reverse_or_raise. cbv zeta.
  set (candidate := default _ _).
  split; [|split].
  - intros ->. simpl. unfold_view. simpl. destruct w.
    by destruct (reverse E "home").
  - intros Hne%truthy_ne Hbad. rewrite Hne, Hbad. simpl. unfold_view. simpl.
    by destruct (reverse E "home").
  - intros Hne%truthy_ne Hok. rewrite Hne, Hok. simpl. unfold_view. simpl. done.
Qed.

(** X5.  A [next] that is present but empty does not fall back to
    [LOGIN_REDIRECT_URL]: the redirect goes to the home route, and nothing
    is logged. *)
Theorem redirect_to_next_empty_next (request : HttpRequest) (w : World)
    (home : string) :
  request_data request !! "next" = Some "" →
  reverse E "home" = Some home →
  redirect_to_next E request w = (HttpResponseRedirect E home, w).
Proof.
  intros Hnext Hhome. unfold redirect_to_next, reverse_url, reverse_or_raise.
  cbv zeta. rewrite Hnext, Hhome. simpl. unfold_view. simpl. by destruct w.
Qed.

(** X6.  A GET of the login page by an anonymous user changes nothing in
    the world; it answers with the login page (an unbound form and the
    login links), and the only way it fails is a social-auth begin route
    that does not reverse. *)
Theorem login_get_anonymous (request : HttpRequest) (w : World) :
  user request = None →
  snd (LoginView_get E request w) = w
  ∧ (∀ r, fst (LoginView_get E request w) = inr r →
       ∃ backends,
         r = render "login.html"
               [("form", VLoginForm None); ("auth_backends", VAuthBackends backends)])
  ∧ (∀ e, fst (LoginView_get E request w) = inl e → e = NoReverseMatch "social:begin").
Proof.
  intros Hu. unfold LoginView_get, is_authenticated. rewrite Hu.
  unfold login_page, get_auth_backends. unfold mbind, View_bind.
  pose proof (auth_backends_loop_world E request (load_backends E) w) as Hw.
  assert (Herr : ∀ names e,
    fst (auth_backends_loop E request names w) = inl e →
    e = NoReverseMatch "social:begin").
  { induction names as [|name names IH]; [done|]. intros e. simpl.
    destruct (reverse_social_begin E name); unfold_view; simpl.
    - pose proof (auth_backends_loop_world E request names w) as Hw'.
      destruct (auth_backends_loop E request names w) as [[e'|l] w2];
        simpl in *; [|done]. intros [= <-]. by apply IH.
    - by intros [= <-]. }
  specialize (Herr (load_backends E)).
  destruct (auth_backends_loop E request (load_backends E) w) as [[e|l] w2];
    simpl in *; subst w2.
  - split; [done|]. split; [done|]. intros e' [= <-]. by apply Herr.
  - split; [done|]. split; [|done]. intros r [= <-]. by eexists.
Qed.

(** X7.  When the configured logout destination does not resolve, logout
    raises, but only after the session has been flushed: the user is
    logged out all the same. *)
Theorem logout_flushes_before_redirect (request : HttpRequest) (w : World)
    (e : Raised) :
  resolve E (LOGOUT_REDIRECT_URL (settings E)) = inl e →
  fst (LogoutView_get E request w) = inl e
  ∧ session_user (snd (LogoutView_get E request w)) = None.
Proof.
  intros He. unfold LogoutView_get, auth_logout, resolve_url.
  unfold_view. simpl. by rewrite He.
Qed.

(** X8.  Login followed by logout: the session is authenticated in
    between and anonymous afterwards, while the last-login times and the
    [UserConfig] rows the login wrote stay, the user's own row included. *)
Theorem login_then_logout (posted out : HttpRequest) (w : World) (u : string) :
  LoginForm_get_user E (POST_data posted) = Some u →
  let w1 := snd (LoginView_post E posted w) in
  let w2 := snd (LogoutView_get E out w1) in
  session_user w1 = Some u
  ∧ session_user w2 = None
  ∧ last_login w2 = last_login w1
  ∧ userconfigs w2 = userconfigs w1
  ∧ is_Some (userconfigs w2 !! u).
Proof.
  intros Hvalid. cbv zeta.
  destruct (login_post_success E posted w u Hvalid) as (Hs & Hc & _).
  set (w1 := snd (LoginView_post E posted w)) in *.
  assert (Hout : session_user (snd (LogoutView_get E out w1)) = None
                 ∧ last_login (snd (LogoutView_get E out w1)) = last_login w1
                 ∧ userconfigs (snd (LogoutView_get E out w1)) = userconfigs w1).
  { by rewrite LogoutView_get_eq. }
  destruct Hout as (Ho1 & Ho2 & Ho3).
  rewrite Ho1, Ho2, Ho3, Hs, Hc. repeat split; try done.
  destruct (userconfigs w !! u) eqn:Hcfg; [by rewrite Hcfg|].
  rewrite lookup_insert_eq. eauto.
Qed.

End MoreLoginProperties.

Section AuthBackendProperties.
Context (E : Env).



(** X10.  With no SAML identity provider configured and every begin
    route reversing, the login page offers one link per authentication
    backend, in the backends' order, each to the backend's begin URL with
    the caller's non-empty [next] as its only parameter; the world is left
    as it was. *)
Theorem get_auth_backends_one_per_backend (request : HttpRequest) (w : World)
    (begin : string → string) :
  get_saml_idps E = [] →
  (∀ name, name ∈ load_backends E → reverse_social_begin E name = Some (begin name)) →
  get_auth_backends E request w =
    (inr ((λ name,
             gen_auth_data E name (begin name)
               (match GET_data request !! "next" with
                | Some next => if truthy next then [("next", next)] else []
                | None => []
                end)) <$> load_backends E), w).
Proof.
  intros Hidps. unfold get_auth_backends.
  induction (load_backends E) as [|name names IH]; intros Hbegin; [done|].
  simpl. rewrite (Hbegin name) by apply list_elem_of_here.
  unfold_view. simpl. rewrite Hidps. simpl. rewrite andb_false_r.
  rewrite IH; [done|].
  intros name' Hin. apply Hbegin. by apply list_elem_of_further.
Qed.

End AuthBackendProperties.

Section MoreTokenProperties.
Context (E : Env).

(** X11.  The GET handlers of the edit form and of the delete
    confirmation only read: they leave the world exactly as it was, for
    every request and primary key, found or not.  The list view changes
    the world only by configuring its table: what it leaves behind is
    what [table.configure(request)] leaves behind, and for an anonymous
    request the world as it was. *)
Theorem token_get_views_read_only (request : HttpRequest) (w : World) :
  (∀ pk, snd (TokenEditView_get E request pk w) = w)
  ∧ (∀ pk, snd (TokenDeleteView_get E request pk w) = w)
  ∧ (is_authenticated request = true →
     snd (TokenListView_get E request w) = snd (TokenTable_configure E request w))
  ∧ (is_authenticated request = false →
     snd (TokenListView_get E request w) = w).
Proof.
  unfold TokenListView_get, TokenEditView_get, TokenDeleteView_get,
    LoginRequiredMixin, is_authenticated.
  destruct (user request) as [u|]; [|done].
  split; [|split; [|split; [|done]]].
  - intros pk. unfold reverse_url.
    destruct (pk_truthy pk).
    + destruct (get_object_or_404_cases u pk w)
        as [H404|(p & t & -> & Hp & Ht & Hget)].
      { by rewrite (bind_inl _ _ _ _ _ H404). }
      rewrite (bind_inr _ _ _ _ _ Hget). unfold_view. simpl.
      by destruct (reverse_or_raise E "users:token_list").
    + unfold_view. simpl. by destruct (reverse_or_raise E "users:token_list").
  - intros pk.
    destruct (get_object_or_404_cases u (Some pk) w)
      as [H404|(p & t & Hpk & Hp & Ht & Hget)].
    { by rewrite (bind_inl _ _ _ _ _ H404). }
    rewrite (bind_inr _ _ _ _ _ Hget).
    unfold delete_page, reverse_url. unfold_view. simpl.
    by destruct (reverse_or_raise E "users:token_list").
  - intros _. unfold_view.
    by destruct (TokenTable_configure E request w) as [[e|[]] w'].
Qed.


(** X13.  The owner's delete: with the confirmation form valid the row
    with that primary key is removed, no other row changes, and the answer
    is a redirect to the token list; with the form invalid the table is
    unchanged and the confirmation page is shown again for that token. *)
Theorem token_delete_by_owner (request : HttpRequest) (w : World) (u : string)
    (p : positive) (t : Token) :
  user request = Some u → tokens w !! p = Some t → tk_user t = u →
  let result := TokenDeleteView_post E request (Npos p) w in
  (ConfirmationForm_is_valid E (POST_data request) = true →
     tokens (snd result) = delete p (tokens w)
     ∧ fst result =
         match resolve E "users:token_list" with
         | inr target => HttpResponseRedirect E target
         | inl e => inl e
         end)
  ∧ (ConfirmationForm_is_valid E (POST_data request) = false →
     tokens (snd result) = tokens w
     ∧ ∀ r, fst result = inr r →
         ∃ return_url,
           r = render "generic/object_delete.html"
                 [("object", VToken (mkInstance (Some p) t));
                  ("form", VConfirmationForm (Some (POST_data request)) []);
                  ("return_url", VStr return_url)]).
Proof.
  intros Hu Hp Ht. cbv zeta. unfold TokenDeleteView_post, LoginRequiredMixin.
  rewrite Hu. cbv zeta.
  rewrite (bind_inr _ _ _ _ _ (get_object_or_404_found u p t w Hp Ht)).
  split; intros ->.
  - unfold Token_delete, redirect, resolve_url. unfold_view. simpl.
    by destruct (resolve E "users:token_list").
  - unfold delete_page, reverse_url. unfold_view. simpl.
    destruct (reverse_or_raise E "users:token_list"); simpl; [done|].
    split; [done|]. intros r [= <-]. by eexists.
Qed.

(** X14.  A primary key of zero is falsy.  The edit view takes it for a
    creation, GET and POST alike, where the delete view looks the key up
    and raises [Http404]. *)
Theorem token_pk_zero (request : HttpRequest) (w : World) (u : string) :
  user request = Some u →
  TokenEditView_get E request (Some 0%N) w = TokenEditView_get E request None w
  ∧ TokenEditView_post E request (Some 0%N) w = TokenEditView_post E request None w
  ∧ TokenDeleteView_get E request 0%N w = (inl Http404, w)
  ∧ TokenDeleteView_post E request 0%N w = (inl Http404, w).
Proof.
  intros Hu. split; [done|]. split; [done|].
  unfold TokenDeleteView_get, TokenDeleteView_post, LoginRequiredMixin.
  rewrite Hu. done.
Qed.

(** X15.  After a valid save that is an edit, or any save while token
    retrieval is allowed, the answer is a redirect: back to the request's
    own path when the form was submitted with [_addanother], to the token
    list otherwise. *)
Theorem token_post_response (request : HttpRequest) (pk : option N) (w : World)
    (u : string) (instance : TokenInstance) :
  user request = Some u →
  (pk_truthy pk = false ∧ instance = Token_blank
   ∨ ∃ p t, pk = Some (Npos p) ∧ tokens w !! p = Some t ∧ tk_user t = u
       ∧ instance = mkInstance (Some p) t) →
  TokenForm_is_valid E (tokens w) (POST_data request) instance = true →
  pk_truthy pk = true ∨ ALLOW_TOKEN_RETRIEVAL (settings E) = true →
  fst (TokenEditView_post E request pk w) =
    match resolve E (if bool_decide (is_Some (POST_data request !! "_addanother"))
                     then path request else "users:token_list") with
    | inr target => HttpResponseRedirect E target
    | inl e => inl e
    end.
Proof.
  intros Hu Hinst Hvalid Hmode.
  assert (Hpost : TokenEditView_post E request pk w =
    (Token_save E (submitted E u (POST_data request) instance)
       ≫= after_save E request pk) w).
  { destruct Hinst as [[Hpk ->]|(p & t & -> & Hp & Ht & ->)].
    - by apply TokenEditView_post_create.
    - by apply TokenEditView_post_edit. }
  rewrite Hpost.
  destruct (Token_save_spec E (submitted E u (POST_data request) instance) w)
    as (p' & r & w1 & Hsave & _).
  rewrite (bind_inr _ _ _ _ _ Hsave).
  unfold after_save.
  assert (Hbranch : negb (pk_truthy pk) && negb (ALLOW_TOKEN_RETRIEVAL (settings E))
                    = false).
  { destruct Hmode as [-> | ->]; [done|]. by rewrite andb_false_r. }
  rewrite Hbranch. unfold redirect, resolve_url. unfold_view. simpl.
  destruct (bool_decide (is_Some _)); cbv beta;
    [destruct (resolve E (path request))
    |destruct (resolve E "users:token_list")]; done.
Qed.

(** X16.  An invalid token form writes nothing to the world: the edit
    page is shown again with the submitted data and [disable_addanother]
    set exactly when token retrieval is disabled.  The form's instance is
    shown as validation left it; on an edit that instance is the token
    being edited, so the page's object shows it too, while on a create
    the object is a fresh token of the requester. *)
Theorem token_post_invalid (request : HttpRequest) (pk : option N) (w : World)
    (u : string) (token instance : TokenInstance) :
  user request = Some u →
  (pk_truthy pk = false ∧ token = Token_new u ∧ instance = Token_blank
   ∨ ∃ p t, pk = Some (Npos p) ∧ tokens w !! p = Some t ∧ tk_user t = u
       ∧ token = mkInstance (Some p) t ∧ instance = token) →
  TokenForm_is_valid E (tokens w) (POST_data request) instance = false →
  let cleaned :=
    mkInstance (instance_pk instance)
      (TokenForm_post_clean E (POST_data request) (row instance)) in
  TokenEditView_post E request pk w =
    (match reverse E "users:token_list" with
     | Some return_url =>
         inr (render "generic/object_edit.html"
                [("object", VToken (if pk_truthy pk then cleaned else token));
                 ("form", VTokenForm (Some (POST_data request)) cleaned);
                 ("return_url", VStr return_url);
                 ("disable_addanother",
                  VBool (negb (ALLOW_TOKEN_RETRIEVAL (settings E))))])
     | None => inl (NoReverseMatch "users:token_list")
     end, w).
Proof.
  intros Hu Hinst Hinvalid. cbv zeta. unfold TokenEditView_post, LoginRequiredMixin.
  rewrite Hu. cbv zeta.
  destruct Hinst as [(Hpk & -> & ->)|(p & t & -> & Hp & Ht & -> & ->)].
  - rewrite Hpk. unfold reverse_url, reverse_or_raise, post_clean.
    unfold_view. simpl.
    rewrite Hinvalid. by destruct (reverse E "users:token_list").
  - simpl pk_truthy. cbv iota.
    unfold mbind at 1. unfold View_bind at 1.
    unfold mbind at 1. unfold View_bind at 1.
    rewrite (get_object_or_404_found u p t w Hp Ht).
    unfold reverse_url, reverse_or_raise, post_clean. unfold_view. simpl.
    rewrite Hinvalid.
    by destruct (reverse E "users:token_list").
Qed.

End MoreTokenProperties.

(** ** Profile, preferences and password views *)

Section AccountProperties.
Import Account.
Context (A : AccountEnv).

Lemma changelog_spec (u : string) (s : Site) :
  length (changelog A u s) ≤ 20
  ∧ (∀ c, c ∈ changelog A u s →
       change_user c = Some u ∧ restrict A u "view" c = true)
  ∧ changelog A u s `sublist_of` object_changes s
  ∧ (∀ c, c ∈ object_changes s → change_user c = Some u →
       restrict A u "view" c = true → c ∉ changelog A u s →
       length (changelog A u s) = 20).
Proof.
  unfold changelog.
  set (matching := filter _ (filter _ (object_changes s))).
  assert (Htake : take 20 matching `sublist_of` matching) by apply sublist_take.
  split; [rewrite length_take; lia|]. split; [|split].
  - intros c Hc. apply (elem_of_sublist _ _ _ Hc) in Htake.
    apply list_elem_of_filter in Htake as [Hu Hin].
    apply list_elem_of_filter in Hin as [Hr _]. done.
  - etrans; [exact Htake|]. etrans; apply sublist_filter.
  - intros c Hin Hu Hr Hnot.
    destruct (decide (length matching ≤ 20)) as [Hle|Hgt].
    + exfalso. apply Hnot. rewrite take_ge by done.
      apply list_elem_of_filter. split; [done|]. by apply list_elem_of_filter.
    + rewrite length_take. lia.
Qed.

(** X17.  The profile page's change log: at most twenty rows, every one
    made by the requesting user and admitted by [restrict] for the view
    action, in the order of the table; a matching row is left out only
    when twenty are shown.  The site is left as it was. *)
Theorem profile_changelog (request : HttpRequest) (s : Site) (u : string) :
  user request = Some u →
  ∃ rows,
    ProfileView_get A request s =
      (inr (Page "users/profile.html"
              [("changelog_table", VChangelogTable rows);
               ("active_tab", Core (VStr "profile"))]), s)
    ∧ length rows ≤ 20
    ∧ (∀ c, c ∈ rows → change_user c = Some u ∧ restrict A u "view" c = true)
    ∧ rows `sublist_of` object_changes s
    ∧ (∀ c, c ∈ object_changes s → change_user c = Some u →
         restrict A u "view" c = true → c ∉ rows → length rows = 20).
Proof.
  intros Hu. exists (changelog A u s). split.
  - unfold ProfileView_get, login_required. by rewrite Hu.
  - apply changelog_spec.
Qed.

(** X18.  The extra context of the user detail page filters the change log
    by the requesting user, not by the user being viewed: it is the same
    whoever is viewed, and when the viewed user is someone else none of
    the rows shown is a change of theirs. *)
Theorem user_view_shows_viewers_changelog (request_user instance : string)
    (s : Site) :
  ∃ rows,
    NetBoxUserView_get_extra_context A request_user instance s =
      [("changelog_table", VChangelogTable rows);
       ("active_tab", Core (VStr "user"))]
    ∧ (∀ c, c ∈ rows → change_user c = Some request_user)
    ∧ (instance ≠ request_user → ∀ c, c ∈ rows → change_user c ≠ Some instance)
    ∧ (∀ other, NetBoxUserView_get_extra_context A request_user other s =
                NetBoxUserView_get_extra_context A request_user instance s).
Proof.
  exists (changelog A request_user s). split; [done|].
  destruct (changelog_spec request_user s) as (_ & Hrows & _).
  split; [|split].
  - intros c Hc. by apply Hrows.
  - intros Hne c Hc. destruct (Hrows c Hc) as [-> _]. congruence.
  - done.
Qed.

Lemma on_world_redirect (to : string) (s : Site) :
  on_world (redirect (base A) to) s =
    (match resolve (base A) to with
     | inr target =>
         match HttpResponseRedirect (base A) target with
         | inr r => inr r
         | inl e => inl (Framework e)
         end
     | inl e => inl (Framework e)
     end, s).
Proof.
  unfold on_world, redirect, resolve_url. unfold_view. simpl.
  destruct (resolve (base A) to) as [|target]; [by destruct s|]. simpl.
  destruct (HttpResponseRedirect (base A) target); by destruct s.
Qed.

Lemma abind_inr {X Y : Type} (m : AView X) (f : X → AView Y) (s s' : Site) (a : X) :
  m s = (inr a, s') → (m ≫= f) s = f a s'.
Proof. intros H. unfold mbind, AView_bind. by rewrite H. Qed.

Lemma on_world_modify (f : World → World) (s : Site) :
  on_world (modify f) s = (inr tt, with_world (f (world s)) s).
Proof. done. Qed.

Lemma UserConfigView_post_eq (request : HttpRequest) (s : Site) (u : string)
    (c : Prefs) :
  user request = Some u → userconfigs (world s) !! u = Some c →
  UserConfigView_post A request s =
    match UserConfigForm_clean A (POST_data request) c with
    | Some saved =>
        (match resolve (base A) "users:preferences" with
         | inr target =>
             match HttpResponseRedirect (base A) target with
             | inr r => inr (Plain r)
             | inl e => inl (Framework e)
             end
         | inl e => inl (Framework e)
         end,
         with_world
           (with_messages
              (messages (world s) ++
                 [MsgText SUCCESS "Your preferences have been updated."])
              (with_userconfigs (<[u := saved]> (userconfigs (world s))) (world s)))
           s)
    | None =>
        (inr (preferences_page (VUserConfigForm (Some (POST_data request)) c)), s)
    end.
Proof.
  intros Hu Hc. unfold UserConfigView_post, login_required. rewrite Hu.
  erewrite abind_inr by (unfold user_config; by rewrite Hc).
  destruct (UserConfigForm_clean A (POST_data request) c) as [saved|]; [|done].
  unfold UserConfig_save, add_message.
  rewrite (abind_inr _ _ _ _ _ (on_world_modify _ s)).
  rewrite (abind_inr _ _ _ _ _ (on_world_modify _ _)).
  unfold mbind, AView_bind. rewrite on_world_redirect. simpl.
  destruct (resolve (base A) "users:preferences") as [|target]; [done|].
  by destruct (HttpResponseRedirect (base A) target).
Qed.

(** X19.  Saving preferences touches the requester's [UserConfig] row and
    no other: valid data replaces that row and redirects to the
    preferences page, invalid data changes nothing and shows the form
    again; passwords, session and tokens are as before either way. *)
Theorem userconfig_post_own_row (request : HttpRequest) (s : Site) (u : string)
    (c : Prefs) :
  user request = Some u → userconfigs (world s) !! u = Some c →
  let s' := snd (UserConfigView_post A request s) in
  (∀ saved, UserConfigForm_clean A (POST_data request) c = Some saved →
     userconfigs (world s') = <[u := saved]> (userconfigs (world s))
     ∧ fst (UserConfigView_post A request s) =
         match resolve (base A) "users:preferences" with
         | inr target =>
             match HttpResponseRedirect (base A) target with
             | inr r => inr (Plain r)
             | inl e => inl (Framework e)
             end
         | inl e => inl (Framework e)
         end)
  ∧ (UserConfigForm_clean A (POST_data request) c = None →
     UserConfigView_post A request s =
       (inr (preferences_page (VUserConfigForm (Some (POST_data request)) c)), s))
  ∧ (∀ other, other ≠ u →
       userconfigs (world s') !! other = userconfigs (world s) !! other)
  ∧ passwords s' = passwords s ∧ session_hash s' = session_hash s
  ∧ tokens (world s') = tokens (world s)
  ∧ session_user (world s') = session_user (world s).
Proof.
  intros Hu Hc. cbv zeta. rewrite (UserConfigView_post_eq request s u c Hu Hc).
  destruct (UserConfigForm_clean A (POST_data request) c) as [saved|]; simpl.
  - split; [by intros ? [= <-]|]. split; [done|]. split; [|done].
    intros other Hne. by rewrite lookup_insert_ne.
  - done.
Qed.

(** X20.  For a user without a [UserConfig] row the preferences view
    raises [RelatedObjectDoesNotExist], on GET and on POST, before
    anything is written. *)
Theorem userconfig_views_need_config (request : HttpRequest) (s : Site) (u : string) :
  user request = Some u → userconfigs (world s) !! u = None →
  UserConfigView_get A request s = (inl RelatedObjectDoesNotExist, s)
  ∧ UserConfigView_post A request s = (inl RelatedObjectDoesNotExist, s).
Proof.
  intros Hu Hc. unfold UserConfigView_get, UserConfigView_post, login_required.
  rewrite Hu. unfold mbind, AView_bind, user_config. by rewrite Hc.
Qed.

(** X21.  The row [LoginView.post] ensures is what the preferences view
    needs: right after a successful login the preferences page renders for
    that user, on the user's configuration, which is the default
    preferences when the login had to create it. *)
Theorem preferences_after_login (posted request : HttpRequest) (s : Site)
    (u : string) :
  LoginForm_get_user (base A) (POST_data posted) = Some u →
  user request = Some u →
  let s1 := with_world (snd (LoginView_post (base A) posted (world s))) s in
  ∃ c,
    UserConfigView_get A request s1 =
      (inr (preferences_page (VUserConfigForm None c)), s1)
    ∧ userconfigs (world s1) !! u = Some c
    ∧ (userconfigs (world s) !! u = None →
       c = DEFAULT_USER_PREFERENCES (get_config (base A))).
Proof.
  intros Hvalid Hu. cbv zeta.
  destruct (login_post_success (base A) posted (world s) u Hvalid)
    as (_ & Hc & _).
  set (w1 := snd (LoginView_post (base A) posted (world s))) in *.
  assert (Hcfg : ∃ c, userconfigs w1 !! u = Some c
                      ∧ (userconfigs (world s) !! u = None →
                         c = DEFAULT_USER_PREFERENCES (get_config (base A)))).
  { rewrite Hc. destruct (userconfigs (world s) !! u) as [c|] eqn:Hold.
    - exists c. by rewrite Hold.
    - eexists. rewrite lookup_insert_eq. done. }
  destruct Hcfg as (c & Hc1 & Hdef). exists c.
  unfold UserConfigView_get, login_required. rewrite Hu.
  unfold mbind, AView_bind, user_config. simpl. rewrite Hc1. done.
Qed.

Lemma ChangePasswordView_get_eq (request : HttpRequest) (s : Site) (u : string) :
  user request = Some u →
  ChangePasswordView_get A request s =
    if is_ldap_user A u then
      (match resolve (base A) "users:profile" with
       | inr target =>
           match HttpResponseRedirect (base A) target with
           | inr r => inr (Plain r)
           | inl e => inl (Framework e)
           end
       | inl e => inl (Framework e)
       end,
       with_world
         (with_messages
            (messages (world s) ++
               [MsgText WARNING
                  "LDAP-authenticated user credentials cannot be changed within NetBox."])
            (world s))
         s)
    else
      (inr (Page "users/password.html"
              [("form", VPasswordChangeForm u None);
               ("active_tab", Core (VStr "password"))]), s).
Proof.
  intros Hu. unfold ChangePasswordView_get, login_required. rewrite Hu.
  destruct (is_ldap_user A u); [|done].
  unfold add_message.
  rewrite (abind_inr _ _ _ _ _ (on_world_modify _ s)).
  unfold mbind, AView_bind. rewrite on_world_redirect. simpl.
  destruct (resolve (base A) "users:profile") as [|target]; [done|].
  by destruct (HttpResponseRedirect (base A) target).
Qed.

Lemma ChangePasswordView_post_eq (request : HttpRequest) (s : Site) (u : string) :
  user request = Some u →
  ChangePasswordView_post A request s =
    match PasswordChangeForm_clean A u (passwords s !! u) (POST_data request) with
    | Some password =>
        (match resolve (base A) "users:profile" with
         | inr target =>
             match HttpResponseRedirect (base A) target with
             | inr r => inr (Plain r)
             | inl e => inl (Framework e)
             end
         | inl e => inl (Framework e)
         end,
         mkSite
           (with_messages
              (messages (world s) ++
                 [MsgText SUCCESS "Your password has been changed successfully."])
              (world s))
           (object_changes s)
           (<[u := password]> (passwords s))
           (Some (get_session_auth_hash A password)))
    | None =>
        (inr (Page "users/password.html"
                [("form", VPasswordChangeForm u (Some (POST_data request)));
                 ("active_tab", Core (VStr "change_password"))]), s)
    end.
Proof.
  intros Hu. unfold ChangePasswordView_post, login_required. rewrite Hu.
  erewrite abind_inr by reflexivity.
  destruct (PasswordChangeForm_clean A u (passwords s !! u) (POST_data request))
    as [password|]; [|done].
  erewrite abind_inr by (unfold set_password; reflexivity).
  erewrite abind_inr by (unfold update_session_auth_hash; reflexivity).
  unfold add_message.
  rewrite (abind_inr _ _ _ _ _ (on_world_modify _ _)).
  unfold mbind, AView_bind. rewrite on_world_redirect. simpl.
  rewrite lookup_insert_eq. simpl.
  destruct (resolve (base A) "users:profile") as [|target]; [done|].
  by destruct (HttpResponseRedirect (base A) target).
Qed.

(** X22.  The GET of the password view changes no password, session hash
    or preference.  For an LDAP user it adds a warning message and
    redirects to the profile; for any other user it shows the unbound
    password form and leaves the site as it was. *)
Theorem password_get (request : HttpRequest) (s : Site) (u : string) :
  user request = Some u →
  let s' := snd (ChangePasswordView_get A request s) in
  passwords s' = passwords s ∧ session_hash s' = session_hash s
  ∧ userconfigs (world s') = userconfigs (world s)
  ∧ (is_ldap_user A u = true →
     fst (ChangePasswordView_get A request s) =
       match resolve (base A) "users:profile" with
       | inr target =>
           match HttpResponseRedirect (base A) target with
           | inr r => inr (Plain r)
           | inl e => inl (Framework e)
           end
       | inl e => inl (Framework e)
       end
     ∧ messages (world s') =
         messages (world s) ++
           [MsgText WARNING
              "LDAP-authenticated user credentials cannot be changed within NetBox."])
  ∧ (is_ldap_user A u = false →
     ChangePasswordView_get A request s =
       (inr (Page "users/password.html"
               [("form", VPasswordChangeForm u None);
                ("active_tab", Core (VStr "password"))]), s)).
Proof.
  intros Hu. cbv zeta. rewrite (ChangePasswordView_get_eq request s u Hu).
  destruct (is_ldap_user A u); simpl; done.
Qed.

(** X23.  A valid password change stores the new password for the
    requester only, sets the session's hash to the new password's hash so
    the session stays valid, and redirects to the profile; an invalid one
    changes nothing and shows the form again. *)
Theorem password_post (request : HttpRequest) (s : Site) (u : string) :
  user request = Some u →
  let s' := snd (ChangePasswordView_post A request s) in
  (∀ password,
     PasswordChangeForm_clean A u (passwords s !! u) (POST_data request)
       = Some password →
     passwords s' = <[u := password]> (passwords s)
     ∧ session_hash s' = Some (get_session_auth_hash A password)
     ∧ fst (ChangePasswordView_post A request s) =
         match resolve (base A) "users:profile" with
         | inr target =>
             match HttpResponseRedirect (base A) target with
             | inr r => inr (Plain r)
             | inl e => inl (Framework e)
             end
         | inl e => inl (Framework e)
         end)
  ∧ (PasswordChangeForm_clean A u (passwords s !! u) (POST_data request) = None →
     ChangePasswordView_post A request s =
       (inr (Page "users/password.html"
               [("form", VPasswordChangeForm u (Some (POST_data request)));
                ("active_tab", Core (VStr "change_password"))]), s))
  ∧ (∀ other, other ≠ u → passwords s' !! other = passwords s !! other)
  ∧ userconfigs (world s') = userconfigs (world s)
  ∧ session_user (world s') = session_user (world s).
Proof.
  intros Hu. cbv zeta. rewrite (ChangePasswordView_post_eq request s u Hu).
  destruct (PasswordChangeForm_clean A u (passwords s !! u) (POST_data request))
    as [password|]; simpl.
  - split; [by intros ? [= <-]|]. split; [done|]. split; [|done].
    intros other Hne. by rewrite lookup_insert_ne.
  - done.
Qed.

(** X24.  The LDAP guard is on GET only.  For an LDAP user the GET never
    shows the password form and changes no password, yet a POST of valid
    data by the same user stores the new password. *)
Theorem password_ldap_guard_only_on_get (request : HttpRequest) (s : Site)
    (u password : string) :
  user request = Some u → is_ldap_user A u = true →
  PasswordChangeForm_clean A u (passwords s !! u) (POST_data request)
    = Some password →
  (∀ template context,
     fst (ChangePasswordView_get A request s) ≠ inr (Page template context))
  ∧ passwords (snd (ChangePasswordView_get A request s)) = passwords s
  ∧ passwords (snd (ChangePasswordView_post A request s)) !! u = Some password.
Proof.
  intros Hu Hldap Hclean.
  rewrite (ChangePasswordView_get_eq request s u Hu), Hldap.
  rewrite (ChangePasswordView_post_eq request s u Hu), Hclean. simpl.
  split; [|split].
  - intros template context.
    destruct (resolve (base A) "users:profile") as [|target]; [done|].
    by destruct (HttpResponseRedirect (base A) target).
  - done.
  - apply lookup_insert_eq.
Qed.

End AccountProperties.

(** ** The further properties at work *)

Section MoreWitnesses.
Import Reference Fixtures.

Lemma login_post_rejected_witness :
  session_user (snd (LoginView_post (env false false)
                       (make_request POST ∅ {["username" := "alice"; "password" := "guess"]} None)
                       world1))
  = session_user world1.
Proof.
  apply (login_post_rejected (env false false) _ world1). reflexivity.
Defined.

Lemma login_maintenance_disconnect_persists_witness :
  last_login
    (snd (LoginView_post (env false false) (make_request POST ∅ credentials None)
            (snd (LoginView_post (env true false)
                    (make_request POST ∅ credentials None) world1))))
  = last_login world1.
Proof.
  apply (login_maintenance_disconnect_persists (env true false) (env false false)
           _ _ world1 "alice" "alice"); reflexivity.
Defined.

Lemma login_stamps_last_login_witness :
  last_login (snd (LoginView_post (env false false)
                     (make_request POST ∅ credentials None) world1)) !! "alice"
  = Some 1700000000%N.
Proof.
  apply (login_stamps_last_login (env false false) _ world1 "alice"); reflexivity.
Defined.

Lemma redirect_to_next_empty_next_witness :
  redirect_to_next env_landing (make_request POST ∅ {["next" := ""]} None) world0
  = (inr (mkResponse (Redirect "/") []), world0).
Proof.
  exact (redirect_to_next_empty_next env_landing
           (make_request POST ∅ {["next" := ""]} None) world0 "/" eq_refl eq_refl).
Defined.

Lemma redirect_to_next_log_witness :
  snd (redirect_to_next (env false false)
         (make_request POST ∅ {["next" := "https://evil.example/x"]} None) world0)
  = with_log
      [mkLog login_logger WARNING
         "Ignoring unsafe 'next' URL passed to login form: https://evil.example/x"]
      world0.
Proof.
  pose proof (redirect_to_next_log (env false false)
                (make_request POST ∅ {["next" := "https://evil.example/x"]} None)
                world0) as (_ & Hunsafe & _).
  cbv zeta in Hunsafe.
  assert (Hne : default (LOGIN_REDIRECT_URL (settings (env false false)))
                  (request_data
                     (make_request POST ∅ {["next" := "https://evil.example/x"]} None)
                     !! "next") ≠ "") by (vm_compute; discriminate).
  exact (Hunsafe Hne eq_refl).
Defined.

Lemma login_get_anonymous_witness :
  snd (LoginView_get env_oauth (make_request GET {["next" := "/dashboard"]} ∅ None)
         world0)
  = world0.
Proof.
  apply (login_get_anonymous env_oauth). reflexivity.
Defined.

Lemma get_auth_backends_one_per_backend_witness :
  get_auth_backends env_oauth (make_request GET {["next" := "/dashboard"]} ∅ None)
    world0
  = (inr [mkAuthData "github" "" "/oauth/login/github/?next=/dashboard";
          mkAuthData "okta" "" "/oauth/login/okta/?next=/dashboard"], world0).
Proof.
  exact (get_auth_backends_one_per_backend env_oauth
           (make_request GET {["next" := "/dashboard"]} ∅ None) world0
           (λ name, "/oauth/login/" +:+ name +:+ "/") eq_refl
           (λ name _, eq_refl)).
Defined.

Lemma logout_flushes_before_redirect_witness :
  fst (LogoutView_get env_bad_logout (make_request GET ∅ ∅ (Some "alice"))
         (with_session (Some "alice") world1))
  = inl (NoReverseMatch "nowhere")
  ∧ session_user
      (snd (LogoutView_get env_bad_logout (make_request GET ∅ ∅ (Some "alice"))
              (with_session (Some "alice") world1)))
    = None.
Proof.
  apply (logout_flushes_before_redirect env_bad_logout). reflexivity.
Defined.

Lemma login_then_logout_witness :
  session_user
    (snd (LogoutView_get (env false false) (make_request GET ∅ ∅ (Some "alice"))
            (snd (LoginView_post (env false false)
                    (make_request POST ∅ credentials None) world1))))
  = None.
Proof.
  apply (login_then_logout (env false false)
           (make_request POST ∅ credentials None)
           (make_request GET ∅ ∅ (Some "alice")) world1 "alice").
  reflexivity.
Defined.


Lemma token_delete_by_owner_witness :
  tokens (snd (TokenDeleteView_post (env false false)
                 (make_request POST ∅ {["confirm" := "on"]} (Some "alice"))
                 1%N world1))
  = delete 1%positive (tokens world1).
Proof.
  apply (proj1 (token_delete_by_owner (env false false)
                  (make_request POST ∅ {["confirm" := "on"]} (Some "alice"))
                  world1 "alice" 1%positive alice_token eq_refl eq_refl eq_refl)).
  reflexivity.
Defined.

Lemma token_pk_zero_witness :
  TokenDeleteView_post (env false false)
    (make_request POST ∅ {["confirm" := "on"]} (Some "alice")) 0%N world1
  = (inl Http404, world1).
Proof.
  pose proof (token_pk_zero (env false false)
                (make_request POST ∅ {["confirm" := "on"]} (Some "alice"))
                world1 "alice" eq_refl) as (_ & _ & _ & Hdelete).
  exact Hdelete.
Defined.

Lemma token_post_response_witness :
  fst (TokenEditView_post env_retrieval
         (make_request POST ∅ {["description" := "ci"; "_addanother" := "1"]}
            (Some "alice")) None world1)
  = inr (mkResponse (Redirect "/user/api-tokens/add/") []).
Proof.
  exact (token_post_response env_retrieval
           (make_request POST ∅ {["description" := "ci"; "_addanother" := "1"]}
              (Some "alice")) None world1 "alice" Token_blank
           eq_refl (or_introl (conj eq_refl eq_refl)) eq_refl (or_intror eq_refl)).
Defined.

Lemma token_post_invalid_witness :
  TokenEditView_post (env false false)
    (make_request POST ∅ {["expires" := "2030-01-01"]} (Some "alice"))
    (Some 1%N) world1
  = (inr (render "generic/object_edit.html"
            [("object",
              VToken (mkInstance (Some 1%positive)
                        (mkToken "alice" "0123456789abcdef"
                           {["expires" := "2030-01-01"]})));
             ("form", VTokenForm (Some {["expires" := "2030-01-01"]})
                        (mkInstance (Some 1%positive)
                           (mkToken "alice" "0123456789abcdef"
                              {["expires" := "2030-01-01"]})));
             ("return_url", VStr "/user/api-tokens/");
             ("disable_addanother", VBool true)]), world1).
Proof.
  assert (Hedit :
    pk_truthy (Some 1%N) = false
    ∧ mkInstance (Some 1%positive) alice_token = Token_new "alice"
    ∧ mkInstance (Some 1%positive) alice_token = Token_blank
    ∨ ∃ p t, Some 1%N = Some (Npos p) ∧ tokens world1 !! p = Some t
        ∧ tk_user t = "alice"
        ∧ mkInstance (Some 1%positive) alice_token = mkInstance (Some p) t
        ∧ mkInstance (Some 1%positive) alice_token
          = mkInstance (Some 1%positive) alice_token).
  { right. exists 1%positive, alice_token. repeat split; reflexivity. }
  exact (token_post_invalid (env false false)
           (make_request POST ∅ {["expires" := "2030-01-01"]} (Some "alice"))
           (Some 1%N) world1 "alice" _ _ eq_refl Hedit eq_refl).
Defined.

Lemma token_get_views_read_only_witness :
  snd (TokenEditView_get (env false false)
         (make_request GET ∅ ∅ (Some "alice")) (Some 1%N) world1) = world1
  ∧ userconfigs
      (snd (TokenListView_get (env false false)
              (make_request GET {["sort" := "created"]} ∅ (Some "alice")) world1))
    = {["alice" := {["tables.TokenTable.ordering" := "created"]}]}.
Proof.
  split.
  - exact (proj1 (token_get_views_read_only (env false false)
                    (make_request GET ∅ ∅ (Some "alice")) world1) (Some 1%N)).
  - exact (f_equal userconfigs
             (proj1 (proj2 (proj2
                (token_get_views_read_only (env false false)
                   (make_request GET {["sort" := "created"]} ∅ (Some "alice"))
                   world1))) eq_refl)).
Defined.

Lemma profile_changelog_witness :
  ∃ rows,
    Account.ProfileView_get AccountReference.env
      (make_request GET ∅ ∅ (Some "alice")) AccountReference.site
    = (inr (Account.Page "users/profile.html"
              [("changelog_table", Account.VChangelogTable rows);
               ("active_tab", Account.Core (VStr "profile"))]),
       AccountReference.site)
    ∧ length rows ≤ 20
    ∧ (∀ c, c ∈ rows →
         Account.change_user c = Some "alice"
         ∧ Account.restrict AccountReference.env "alice" "view" c = true)
    ∧ rows `sublist_of` Account.object_changes AccountReference.site
    ∧ (∀ c, c ∈ Account.object_changes AccountReference.site →
         Account.change_user c = Some "alice" →
         Account.restrict AccountReference.env "alice" "view" c = true →
         c ∉ rows → length rows = 20).
Proof.
  exact (profile_changelog AccountReference.env
           (make_request GET ∅ ∅ (Some "alice")) AccountReference.site "alice"
           eq_refl).
Defined.

Lemma userconfig_post_own_row_witness :
  userconfigs
    (Account.world
       (snd (Account.UserConfigView_post AccountReference.env
               (make_request POST ∅ {["pagination.per_page" := "100"]} (Some "alice"))
               AccountReference.site)))
  = <["alice" := {["pagination.per_page" := "100"]}]>
      (userconfigs (Account.world AccountReference.site)).
Proof.
  pose proof (userconfig_post_own_row AccountReference.env
                (make_request POST ∅ {["pagination.per_page" := "100"]} (Some "alice"))
                AccountReference.site "alice" {["pagination.per_page" := "50"]}
                eq_refl eq_refl) as (Hsaved & _).
  exact (proj1 (Hsaved {["pagination.per_page" := "100"]} eq_refl)).
Defined.

Lemma userconfig_views_need_config_witness :
  Account.UserConfigView_get AccountReference.env
    (make_request GET ∅ ∅ (Some "bob")) AccountReference.site
  = (inl Account.RelatedObjectDoesNotExist, AccountReference.site).
Proof.
  exact (proj1 (userconfig_views_need_config AccountReference.env
                  (make_request GET ∅ ∅ (Some "bob")) AccountReference.site "bob"
                  eq_refl eq_refl)).
Defined.

Lemma preferences_after_login_witness :
  ∃ c,
    Account.UserConfigView_get AccountReference.env
      (make_request GET ∅ ∅ (Some "alice"))
      (Account.with_world
         (snd (LoginView_post (env false false)
                 (make_request POST ∅ credentials None) world1))
         (Account.with_world world1 AccountReference.site))
    = (inr (Account.preferences_page (Account.VUserConfigForm None c)),
       Account.with_world
         (snd (LoginView_post (env false false)
                 (make_request POST ∅ credentials None) world1))
         (Account.with_world world1 AccountReference.site))
    ∧ c = {["pagination.per_page" := "50"]}.
Proof.
  destruct (preferences_after_login AccountReference.env
              (make_request POST ∅ credentials None)
              (make_request GET ∅ ∅ (Some "alice"))
              (Account.with_world world1 AccountReference.site) "alice"
              eq_refl eq_refl) as (c & Hget & _ & Hdefault).
  exists c. split; [exact Hget|exact (Hdefault eq_refl)].
Defined.

Lemma password_get_witness :
  Account.passwords
    (snd (Account.ChangePasswordView_get AccountReference.env
            (make_request GET ∅ ∅ (Some "bob")) AccountReference.site))
  = Account.passwords AccountReference.site.
Proof.
  exact (proj1 (password_get AccountReference.env
                  (make_request GET ∅ ∅ (Some "bob")) AccountReference.site "bob"
                  eq_refl)).
Defined.

Lemma password_post_witness :
  Account.passwords
    (snd (Account.ChangePasswordView_post AccountReference.env
            (make_request POST ∅
               {["old_password" := "s3cret"; "new_password1" := "n3w";
                 "new_password2" := "n3w"]} (Some "alice"))
            AccountReference.site))
  = <["alice" := "n3w"]> (Account.passwords AccountReference.site)
  ∧ Account.session_hash
      (snd (Account.ChangePasswordView_post AccountReference.env
              (make_request POST ∅
                 {["old_password" := "s3cret"; "new_password1" := "n3w";
                   "new_password2" := "n3w"]} (Some "alice"))
              AccountReference.site))
    = Some "hmac:n3w".
Proof.
  pose proof (password_post AccountReference.env
                (make_request POST ∅
                   {["old_password" := "s3cret"; "new_password1" := "n3w";
                     "new_password2" := "n3w"]} (Some "alice"))
                AccountReference.site "alice" eq_refl) as (Hvalid & _).
  destruct (Hvalid "n3w" eq_refl) as (Hpw & Hhash & _).
  split; [exact Hpw|exact Hhash].
Defined.

Lemma password_ldap_guard_only_on_get_witness :
  Account.passwords
    (snd (Account.ChangePasswordView_post AccountReference.env
            (make_request POST ∅
               {["old_password" := "hunter2"; "new_password1" := "n3w";
                 "new_password2" := "n3w"]} (Some "bob"))
            AccountReference.site)) !! "bob"
  = Some "n3w".
Proof.
  exact (proj2 (proj2 (password_ldap_guard_only_on_get AccountReference.env
                         (make_request POST ∅
                            {["old_password" := "hunter2"; "new_password1" := "n3w";
                              "new_password2" := "n3w"]} (Some "bob"))
                         AccountReference.site "bob" "n3w"
                         eq_refl eq_refl eq_refl))).
Defined.

End MoreWitnesses.
